(** * Domain expiry: the record store, the WHOIS extractor, the notification
      threshold engine and the monitor adapter

    A shallow embedding of [server/model/domain_expiry.js] and of the
    [domain-expiry] monitor type, with the properties of the design
    specification stated over it.

    Conventions of the embedding.
    - A JavaScript [Date] is its time value: [InvalidDate] for NaN, otherwise
      the milliseconds since the epoch.
    - The date-time columns of a bean hold the text [R.isoDateTimeMillis]
      renders.  The server runs with the UTC time zone, where rendering a
      date and reading the text back gives the instant again, so the model
      keeps the instant inside the text value ([JsIsoText]) and not its
      digits.  What matters to the code is kept: the value is a string, it is
      truthy, and it has no [getTime] method.
    - [async] functions are state passing over a [World]: the clock, the
      [domain_expiry] table, the settings and the logs of the WHOIS lookups
      and of the notification sends.  A rejected promise is a [Throw].
    - Libraries the module calls (the WHOIS client and parser, the URL and
      date parsers of the engine, tldts, the notification dispatcher) are
      Variables of the sections. *)

From Stdlib Require Import ZArith Lia List Sorted Permutation.
From Stdlib Require Import String Ascii DecimalString.
From stdpp Require Import gmap strings.
Import ListNotations.

Local Open Scope string_scope.

(** ** JavaScript values *)

(** The time value of a [Date] object. *)
Inductive JsDate : Type :=
| InvalidDate
| DateAt (ms : Z).

(** The values that flow through the bean fields and the return values. *)
Inductive JsValue : Type :=
| JsUndefined
| JsNull
| JsNumber (n : Z)
| JsIsoText (d : JsDate)      (* the string R.isoDateTimeMillis gives for d *)
| JsDateObj (d : JsDate).     (* a Date object *)

(** Errors a call can throw. *)
Inductive JsError : Type :=
| TranslatableError (key : string)
| Error (msg : string)
| TypeError (msg : string).

(** ToBoolean.  A rendered date is a non-empty string. *)
Definition truthy (v : JsValue) : bool :=
  match v with
  | JsUndefined | JsNull => false
  | JsNumber n => negb (n =? 0)%Z
  | JsIsoText _ | JsDateObj _ => true
  end.

Definition MILLISECONDS_A_DAY : Z := 86400000.

(** [dayjs.utc(v)] at clock [now]: [undefined] is the current time, [null] is
    an invalid date, a number is a time value. *)
Definition dayjs_utc (now : Z) (v : JsValue) : JsDate :=
  match v with
  | JsUndefined => DateAt now
  | JsNull => InvalidDate
  | JsNumber n => DateAt n
  | JsIsoText d => d
  | JsDateObj d => d
  end.

(** [new Date(v)] for the values a bean field holds. *)
Definition new_Date (v : JsValue) : JsDate :=
  match v with
  | JsUndefined => InvalidDate
  | JsNull => DateAt 0
  | JsNumber n => DateAt n
  | JsIsoText d => d
  | JsDateObj d => d
  end.

(** [a.diff(b, "day")]: the difference in milliseconds over a day, truncated
    towards zero; NaN ([None]) when either date is invalid. *)
Definition diff_day (a b : JsDate) : option Z :=
  match a, b with
  | DateAt x, DateAt y => Some (Z.quot (x - y) MILLISECONDS_A_DAY)
  | _, _ => None
  end.

(** [a.isAfter(b)]: false when either date is invalid. *)
Definition isAfter (a b : JsDate) : bool :=
  match a, b with
  | DateAt x, DateAt y => (y <? x)%Z
  | _, _ => false
  end.

(** Comparisons of a possibly-NaN number with a number: false on NaN. *)
Definition num_lt (a : option Z) (b : Z) : bool :=
  match a with Some x => (x <? b)%Z | None => false end.

Definition num_gt (a : option Z) (b : Z) : bool :=
  match a with Some x => (b <? x)%Z | None => false end.

(** [R.isoDateTimeMillis(v)]: [dayjs(v).format(...)]; [null] renders as the
    text of an invalid date. *)
Definition isoDateTimeMillis (now : Z) (v : JsValue) : JsValue :=
  match v with
  | JsUndefined => JsIsoText (DateAt now)
  | JsNull => JsIsoText InvalidDate
  | JsNumber n => JsIsoText (DateAt n)
  | JsIsoText d => JsIsoText d
  | JsDateObj d => JsIsoText d
  end.

(** ** Strings *)

(** White space removed by [String.prototype.trim], on the ASCII range. *)
Definition is_white (c : ascii) : bool :=
  let n := nat_of_ascii c in
  ((9 <=? n) && (n <=? 13) || (n =? 32))%nat.

Fixpoint trim_start (s : string) : string :=
  match s with
  | String c s' => if is_white c then trim_start s' else s
  | EmptyString => EmptyString
  end.

(** Drops the trailing white space: a character is kept when something
    that is kept follows it, or when it is not white space. *)
Fixpoint trim_end (s : string) : string :=
  match s with
  | EmptyString => EmptyString
  | String c s' =>
      match trim_end s' with
      | EmptyString => if is_white c then EmptyString else String c EmptyString
      | r => String c r
      end
  end.

Definition trim (s : string) : string := trim_end (trim_start s).

(** [s.split(".")], with the component being read in [cur]. *)
Fixpoint split_dot_from (cur : string) (s : string) : list string :=
  match s with
  | EmptyString => [cur]
  | String c s' =>
      if Ascii.eqb c "."%char
      then cur :: split_dot_from EmptyString s'
      else split_dot_from (cur +:+ String c EmptyString) s'
  end.

Definition split_dot (s : string) : list string := split_dot_from EmptyString s.

(** [arr.pop()] on a non-empty array of strings. *)
Definition pop (l : list string) : string := List.last l EmptyString.

(** A number in a template literal. *)
Definition show_Z (n : Z) : string := NilZero.string_of_int (Z.to_int n).

Definition show_num (n : option Z) : string :=
  match n with Some z => show_Z z | None => "NaN" end.

(** A nullable string in a template literal. *)
Definition show_opt (s : option string) : string :=
  match s with Some x => x | None => "null" end.

(** ** [Date.prototype.toISOString] *)

Local Open Scope Z_scope.

(** Year, month and day of a day number counted from the epoch. *)
Definition civil_from_days (z : Z) : Z * Z * Z :=
  let z := z + 719468 in
  let era := z / 146097 in
  let doe := z - era * 146097 in
  let yoe := (doe - doe / 1460 + doe / 36524 - doe / 146096) / 365 in
  let doy := doe - (365 * yoe + yoe / 4 - yoe / 100) in
  let mp := (5 * doy + 2) / 153 in
  let d := doy - (153 * mp + 2) / 5 + 1 in
  let m := if mp <? 10 then mp + 3 else mp - 9 in
  let y := yoe + era * 400 in
  (if m <=? 2 then y + 1 else y, m, d).

(** Day number of a civil date. *)
Definition days_from_civil (y m d : Z) : Z :=
  let y := if m <=? 2 then y - 1 else y in
  let era := y / 400 in
  let yoe := y - era * 400 in
  let doy := (153 * (if 2 <? m then m - 3 else m + 9) + 2) / 5 + d - 1 in
  let doe := yoe * 365 + yoe / 4 - yoe / 100 + doy in
  era * 146097 + doe - 719468.

(** The last [w] decimal digits of [n], zero padded. *)
Fixpoint digits (w : nat) (n : Z) : string :=
  match w with
  | O => EmptyString
  | S w' =>
      digits w' (n / 10) +:+
      String (ascii_of_nat (48 + Z.to_nat (n mod 10))) EmptyString
  end.

Definition show_year (y : Z) : string :=
  if (0 <=? y) && (y <=? 9999) then digits 4 y
  else if y <? 0 then "-" +:+ digits 6 (- y)
  else "+" +:+ digits 6 y.

(** [toISOString] of a valid time value. *)
Definition toISOString (ms : Z) : string :=
  let day := ms / MILLISECONDS_A_DAY in
  let t := ms mod MILLISECONDS_A_DAY in
  let '(y, m, d) := civil_from_days day in
  show_year y +:+ "-" +:+ digits 2 m +:+ "-" +:+ digits 2 d +:+ "T" +:+
  digits 2 (t / 3600000) +:+ ":" +:+ digits 2 (t / 60000 mod 60) +:+ ":" +:+
  digits 2 (t / 1000 mod 60) +:+ "." +:+ digits 3 (t mod 1000) +:+ "Z".

(** ** The date-time string format of ECMAScript

    [Date_parse_iso] reads [YYYY-MM-DD], [YYYY-MM-DDTHH:mm:ssZ] and
    [YYYY-MM-DDTHH:mm:ss.sssZ], the forms every engine reads alike.  It is the
    date parser the examples run with; the theorems hold for any parser. *)

Definition digit_val (c : ascii) : option Z :=
  let n := nat_of_ascii c in
  if ((48 <=? n) && (n <=? 57))%nat then Some (Z.of_nat n - 48) else None.

(** The number written by the first [w] characters, and the rest. *)
Fixpoint read_digits (w : nat) (acc : Z) (s : string) : option (Z * string) :=
  match w with
  | O => Some (acc, s)
  | S w' =>
      match s with
      | String c s' =>
          match digit_val c with
          | Some v => read_digits w' (acc * 10 + v) s'
          | None => None
          end
      | EmptyString => None
      end
  end.

Definition read_char (c : ascii) (s : string) : option string :=
  match s with
  | String c' s' => if Ascii.eqb c c' then Some s' else None
  | EmptyString => None
  end.

Definition days_in_month (y m : Z) : Z :=
  days_from_civil (if m =? 12 then y + 1 else y) (if m =? 12 then 1 else m + 1) 1
  - days_from_civil y m 1.

Definition read_date (s : string) : option (Z * string) :=
  '(y, s) ← read_digits 4 0 s;
  s ← read_char "-"%char s;
  '(m, s) ← read_digits 2 0 s;
  s ← read_char "-"%char s;
  '(d, s) ← read_digits 2 0 s;
  if (1 <=? m) && (m <=? 12) && (1 <=? d) && (d <=? days_in_month y m)
  then Some (days_from_civil y m d * MILLISECONDS_A_DAY, s)
  else None.

Definition read_time (s : string) : option (Z * string) :=
  s ← read_char "T"%char s;
  '(h, s) ← read_digits 2 0 s;
  s ← read_char ":"%char s;
  '(mi, s) ← read_digits 2 0 s;
  s ← read_char ":"%char s;
  '(sec, s) ← read_digits 2 0 s;
  '(ms, s) ← match read_char "."%char s with
             | Some s' => read_digits 3 0 s'
             | None => Some (0, s)
             end;
  s ← read_char "Z"%char s;
  if (h <=? 23) && (mi <=? 59) && (sec <=? 59)
  then Some (h * 3600000 + mi * 60000 + sec * 1000 + ms, s)
  else None.

Definition Date_parse_iso (s : string) : JsDate :=
  match read_date s with
  | Some (day, EmptyString) => DateAt day
  | Some (day, rest) =>
      match read_time rest with
      | Some (t, EmptyString) => DateAt (day + t)
      | _ => InvalidDate
      end
  | None => InvalidDate
  end.

Local Close Scope Z_scope.

(** ** The WHOIS extractor *)

Definition WHOIS_EXPIRY_KEYS : list string :=
  [ "Registrar Registration Expiration Date";
    "Registry Expiry Date";
    "Expiration Time";
    "paid-till" ].

(** [WHOIS_EXPIRY_KEYS.includes(s)] *)
Definition includes (keys : list string) (s : string) : bool :=
  existsb (String.eqb s) keys.

(** An element of the array [parser.parseWhoIsData] returns. *)
Record WhoisParam : Type := mkParam { attribute : string; value : string }.

(** [obj[k] = v] on an object literal: every key makes an own property but
    [__proto__], whose setter ignores a string. *)
Definition obj_set (k v : string) (o : gmap string string) : gmap string string :=
  if String.eqb k "__proto__" then o else <[k := v]> o.

(** What the callback of the lookup resolves the promise with. *)
Record ExpiryResult : Type := mkResult {
  expiryDate : JsValue;                       (* a valid Date or null *)
  whoisInfo : option (gmap string string)     (* an object or null *)
}.

Section Extractor.

(** [new Date(s)] of the engine on a string. *)
Variable Date_parse : string -> JsDate.
(** [parser.parseWhoIsData] of parse-whois. *)
Variable parseWhoIsData : string -> list WhoisParam.

(** One turn of the loop over the entries: [paidTillDate] ([None] while it
    is undefined) and [whoisInfo]. *)
Definition scan_step (st : option JsDate * gmap string string) (param : WhoisParam)
  : option JsDate * gmap string string :=
  ( if includes WHOIS_EXPIRY_KEYS (trim (attribute param))
    then Some (Date_parse (value param))
    else fst st,
    obj_set (attribute param) (value param) (snd st) ).

Definition scan (parsedData : list WhoisParam) : option JsDate * gmap string string :=
  fold_left scan_step parsedData (None, ∅).

(** The end of the callback, after the loop. *)
Definition resolve_scan (st : option JsDate * gmap string string) : ExpiryResult :=
  match fst st with
  | Some (DateAt ms) => mkResult (JsDateObj (DateAt ms)) (Some (snd st))
  | Some InvalidDate | None => mkResult JsNull (Some (snd st))
  end.

(** The callback given to [whois.lookup]: [None] is a call with [err]. *)
Definition lookup_callback (reply : option string) : ExpiryResult :=
  match reply with
  | None => mkResult JsNull None
  | Some data => resolve_scan (scan (parseWhoIsData data))
  end.

End Extractor.

(** The extractor as the specification words it: the date comes from the
    first pair whose attribute name is exactly a known key. *)
Definition spec_first_expiry (Date_parse : string -> JsDate)
    (parsedData : list WhoisParam) : JsValue :=
  match List.find (fun p => includes WHOIS_EXPIRY_KEYS (attribute p)) parsedData with
  | Some p =>
      match Date_parse (value p) with
      | DateAt ms => JsDateObj (DateAt ms)
      | InvalidDate => JsNull
      end
  | None => JsNull
  end.

(** The mapping as the specification words it: every attribute name to its
    value, the last occurrence winning. *)
Definition spec_registryInfo (parsedData : list WhoisParam) : gmap string string :=
  fold_left (fun m p => <[attribute p := value p]> m) parsedData ∅.

(** ** Reading a sequence of pairs from its end *)

(** The last element of [l] that satisfies [f]. *)
Definition find_last {A : Type} (f : A -> bool) (l : list A) : option A :=
  List.find f (rev l).

Definition has_attribute (k : string) (p : WhoisParam) : bool :=
  String.eqb (attribute p) k.

(** The attribute is a known expiry key once the white space around it is
    removed. *)
Definition is_expiry_key (p : WhoisParam) : bool :=
  includes WHOIS_EXPIRY_KEYS (trim (attribute p)).

(** A [Date] as the extractor hands it on: [null] when it is invalid. *)
Definition date_or_null (d : JsDate) : JsValue :=
  match d with
  | DateAt ms => JsDateObj (DateAt ms)
  | InvalidDate => JsNull
  end.

(** ** The world of the asynchronous calls *)

(** A row of the table [domain_expiry]; a field not yet set is [JsUndefined]. *)
Record Bean : Type := mkBean {
  domain : string;
  expiry : JsValue;
  lastCheck : JsValue;
  lastExpiryNotificationSent : JsValue;
  whois_info : option (gmap string string)   (* the JSON text of the object, or null *)
}.

(** A provider of the notification list. *)
Record Provider : Type := mkProvider { name : string; config : string }.

(** A call of [Notification.send] and whether it returned. *)
Record SendAttempt : Type := mkAttempt {
  deadline : Z;            (* the threshold the call was made for *)
  provider : Provider;
  message : string;
  delivered : bool
}.

Record World : Type := mkWorld {
  clock : Z;                                    (* what dayjs.utc() reads *)
  domain_expiry : gmap string Bean;             (* the table, by its unique key *)
  domainExpiryNotifyDays : option (list Z);     (* the setting; None: null or not an array *)
  lookups : list string;                        (* WHOIS queries issued, oldest first *)
  outbox : list SendAttempt                     (* notification sends, oldest first *)
}.

Inductive Outcome (A : Type) : Type :=
| Return (a : A)
| Throw (e : JsError).
Arguments Return {A} a.
Arguments Throw {A} e.

(** An asynchronous computation: a result or an exception, and the world
    it leaves. *)
Definition Async (A : Type) : Type := World -> Outcome A * World.

#[export] Instance Async_ret : MRet Async := fun A a w => (Return a, w).

#[export] Instance Async_bind : MBind Async := fun A B f m w =>
  match m w with
  | (Return a, w') => f a w'
  | (Throw e, w') => (Throw e, w')
  end.

Definition throw {A : Type} (e : JsError) : Async A := fun w => (Throw e, w).

Definition now : Async Z := fun w => (Return (clock w), w).

(** ** The model [DomainExpiry] *)

(** [tldts.parse]: the fields of its result the module reads. *)
Record IResult : Type := mkIResult {
  isIp : option bool;
  hostname : option string;
  publicSuffix : option string;
  tld_domain : option string          (* the field [domain] *)
}.

(** A monitor: its type, and its properties that hold a string. *)
Record Monitor : Type := mkMonitor {
  type : string;
  props : gmap string string
}.

(** What [checkSupport] returns: [{ domain, tld }]. *)
Record SupportInfo : Type := mkSupport {
  support_domain : option string;
  support_tld : string
}.

(** [R.dispense] followed by [d.domain = domain]. *)
Definition createByName (d : string) : Bean :=
  mkBean d JsUndefined JsUndefined JsUndefined None.

(** [R.findOne("domain_expiry", "domain = ?", [domain])]; no row has a
    domain equal to [null]. *)
Definition findByName (d : option string) : Async (option Bean) :=
  fun w => (Return (d ≫= fun k => domain_expiry w !! k), w).

(** [R.store(bean)].  The row is kept as the bean is: a field that was
    never assigned stays [JsUndefined] here, where the database gives [null]
    back; both are falsy and neither is a number. *)
Definition store (b : Bean) : Async unit :=
  fun w => (Return tt,
            mkWorld (clock w) (<[domain b := b]> (domain_expiry w))
                    (domainExpiryNotifyDays w) (lookups w) (outbox w)).

Definition findByDomainNameOrCreate (domainName : option string) : Async (option Bean) :=
  found ← findByName domainName;
  match found, domainName with
  | None, Some d => if String.eqb d "" then mret None else mret (Some (createByName d))
  | _, _ => mret found
  end.

(** The getter [daysRemaining]. *)
Definition daysRemaining (clock_now : Z) (b : Bean) : option Z :=
  diff_day (dayjs_utc clock_now (expiry b)) (DateAt clock_now).

Section Model.

Variable Date_parse : string -> JsDate.
Variable parseWhoIsData : string -> list WhoisParam.
(** [new URL(s).host]; [None] when the constructor throws. *)
Variable URL_host : string -> option string.
(** [whois.lookup]: the text it answers the n-th query with, [None] when
    it calls back with an error. *)
Variable whois_lookup : nat -> string -> option string.
(** [Notification.send(JSON.parse(config), msg)] at the n-th send:
    [false] when the call throws. *)
Variable Notification_send : nat -> Provider -> string -> bool.
Variable parseTld : string -> IResult.
(** The table of [src/util]: the target field of each supported type. *)
Variable TYPES_WITH_DOMAIN_EXPIRY_SUPPORT_VIA_FIELD : gmap string string.

Definition normalizeDomain (input : string) : Async string :=
  if String.eqb input "" then mret ""
  else match URL_host input with
       | Some h => mret h
       | None =>
           match URL_host ("http://" +:+ input) with
           | Some h => mret h
           | None => throw (TypeError "Invalid URL")
           end
       end.

(** The promise around [whois.lookup]. *)
Definition whois_query (normalizedDomain : string) : Async ExpiryResult :=
  fun w =>
    (Return (lookup_callback Date_parse parseWhoIsData
               (whois_lookup (length (lookups w)) normalizedDomain)),
     mkWorld (clock w) (domain_expiry w) (domainExpiryNotifyDays w)
             (lookups w ++ [normalizedDomain]) (outbox w)).

Definition getWhoisDomainExpiryDate (d : string) : Async ExpiryResult :=
  normalizedDomain ← normalizeDomain d;
  whois_query normalizedDomain.

Definition getExpiryDate (b : Bean) : Async ExpiryResult :=
  getWhoisDomainExpiryDate (domain b).

(** The condition of the first branch of [checkExpiry]. *)
Definition checked_recently (clock_now : Z) (b : Bean) : bool :=
  truthy (lastCheck b) &&
  num_lt (diff_day (dayjs_utc clock_now (lastCheck b)) (DateAt clock_now)) 1.

Definition checkExpiry (domainName : option string) : Async JsValue :=
  bean ← findByDomainNameOrCreate domainName;
  t ← now;
  match bean with
  | Some b =>
      if checked_recently t b then mret (expiry b)
      else
        result ← getExpiryDate b;
        let lastSent :=
          if isAfter (dayjs_utc t (expiryDate result)) (dayjs_utc t (expiry b))
          then JsNull else lastExpiryNotificationSent b in
        store (mkBean (domain b)
                      (isoDateTimeMillis t (expiryDate result))
                      (JsIsoText (DateAt t))
                      lastSent
                      (whoisInfo result));;
        match expiryDate result with
        | JsNull => mret JsUndefined
        | d => mret d
        end
  | None => mret JsUndefined
  end.

Definition checkSupport (monitor : Monitor) : Async SupportInfo :=
  match TYPES_WITH_DOMAIN_EXPIRY_SUPPORT_VIA_FIELD !! type monitor with
  | None => throw (TranslatableError "domain_expiry_unsupported_monitor_type")
  | Some targetField =>
      match props monitor !! targetField with
      | None | Some "" =>
          throw (TranslatableError "domain_expiry_unsupported_missing_target")
      | Some target =>
          let tld := parseTld target in
          match isIp tld with
          | Some true => throw (TranslatableError "domain_expiry_unsupported_is_ip")
          | _ =>
              match publicSuffix tld with
              | None =>
                  throw (TypeError "Cannot read properties of null (reading 'length')")
              | Some ps =>
                  if (String.length ps <? 2)%nat
                  then throw (TranslatableError "domain_expiry_public_suffix_too_short")
                  else mret (mkSupport (tld_domain tld) (pop (split_dot ps)))
              end
          end
      end
  end.

(** The loop over the providers: the flag [sent] so far is threaded. *)
Fixpoint send_each (domainName : option string) (days : option Z) (targetDays : Z)
    (sent : bool) (notificationList : list Provider) : Async bool :=
  match notificationList with
  | [] => mret sent
  | notification :: rest =>
      let msg := "Domain name " +:+ show_opt domainName +:+ " will expire in "
                 +:+ show_num days +:+ " days" in
      ok ← (fun w =>
              let ok := Notification_send (length (outbox w)) notification msg in
              (Return ok,
               mkWorld (clock w) (domain_expiry w) (domainExpiryNotifyDays w) (lookups w)
                       (outbox w ++ [mkAttempt targetDays notification msg ok])));
      send_each domainName days targetDays (sent || ok) rest
  end.

Definition sendDomainNotificationByTargetDays (domainName : option string)
    (days : option Z) (targetDays : Z) (notificationList : list Provider) : Async bool :=
  send_each domainName days targetDays false notificationList.

End Model.

(** ** What a cycle of [checkExpiry] leaves *)

(** The bean [findByDomainNameOrCreate] answers with: the row of the table,
    or a fresh bean for a name that is not empty. *)
Definition bean_for (w : World) (d : string) : option Bean :=
  match domain_expiry w !! d with
  | Some b => Some b
  | None => if String.eqb d "" then None else Some (createByName d)
  end.

(** The world after the store step of a cycle that queried. *)
Definition stored_world (w : World) (b : Bean) (result : ExpiryResult) : World :=
  let t := clock w in
  mkWorld t
    (<[domain b :=
         mkBean (domain b)
                (isoDateTimeMillis t (expiryDate result))
                (JsIsoText (DateAt t))
                (if isAfter (dayjs_utc t (expiryDate result)) (dayjs_utc t (expiry b))
                 then JsNull else lastExpiryNotificationSent b)
                (whoisInfo result)]> (domain_expiry w))
    (domainExpiryNotifyDays w) (lookups w) (outbox w).

(** ** The notification threshold engine *)

(** [notifyDays.sort((a, b) => a - b)] *)
Fixpoint insert_asc (x : Z) (l : list Z) : list Z :=
  match l with
  | [] => [x]
  | y :: l' => if (x <=? y)%Z then x :: l else y :: insert_asc x l'
  end.

Definition sort_asc (l : list Z) : list Z := fold_right insert_asc [] l.

(** ToNumber, for the comparison of [lastSent]. *)
Definition to_number (v : JsValue) : option Z :=
  match v with
  | JsUndefined => None
  | JsNull => Some 0%Z
  | JsNumber n => Some n
  | JsIsoText _ => None
  | JsDateObj (DateAt ms) => Some ms
  | JsDateObj InvalidDate => None
  end.

Definition num_le (a : option Z) (b : Z) : bool :=
  match a with Some x => (x <=? b)%Z | None => false end.

(** The two tests that make the loop [continue]. *)
Definition not_due (days : option Z) (targetDays : Z) : bool :=
  num_gt days targetDays.

Definition sent_already (lastSent : JsValue) (targetDays : Z) : bool :=
  truthy lastSent && num_le (to_number lastSent) targetDays.

Definition skips (days : option Z) (lastSent : JsValue) (targetDays : Z) : bool :=
  not_due days targetDays || sent_already lastSent targetDays.

Definition is_invalid (d : JsDate) : bool :=
  match d with InvalidDate => true | DateAt _ => false end.

(** [setting("domainExpiryNotifyDays")], with the reset to the default. *)
Definition load_notifyDays : Async (list Z) :=
  fun w =>
    match domainExpiryNotifyDays w with
    | Some l => (Return l, w)
    | None =>
        (Return [7; 14; 21]%Z,
         mkWorld (clock w) (domain_expiry w) (Some [7; 14; 21]%Z) (lookups w) (outbox w))
    end.

Definition with_lastSent (b : Bean) (v : JsValue) : Bean :=
  mkBean (domain b) (expiry b) (lastCheck b) v (whois_info b).

Section Engine.

Variable Notification_send : nat -> Provider -> string -> bool.

(** The [for] loop over the sorted thresholds. *)
Fixpoint notify_loop (domainName : option string) (b : Bean) (days : option Z)
    (lastSent : JsValue) (notificationList : list Provider) (notifyDays : list Z)
  : Async JsValue :=
  match notifyDays with
  | [] => mret JsUndefined
  | targetDays :: rest =>
      if not_due days targetDays
      then notify_loop domainName b days lastSent notificationList rest
      else if sent_already lastSent targetDays
      then notify_loop domainName b days lastSent notificationList rest
      else
        sent ← sendDomainNotificationByTargetDays Notification_send
                 domainName days targetDays notificationList;
        if sent : bool
        then store (with_lastSent b (JsNumber targetDays));; mret (JsNumber targetDays)
        else notify_loop domainName b days lastSent notificationList rest
  end.

Definition sendNotifications (domainName : option string)
    (notificationList : list Provider) : Async JsValue :=
  found ← findByDomainNameOrCreate domainName;
  match notificationList with
  | [] => mret JsUndefined
  | _ :: _ =>
      match found with
      | None => throw (TypeError "Cannot read properties of null (reading 'expiry')")
      | Some b =>
          if negb (truthy (expiry b)) || is_invalid (new_Date (expiry b))
          then mret JsUndefined
          else
            t ← now;
            notifyDays ← load_notifyDays;
            notify_loop domainName b (daysRemaining t b)
                        (lastExpiryNotificationSent b) notificationList
                        (sort_asc notifyDays)
      end
  end.

End Engine.

(** ** What a cycle of [sendNotifications] leaves *)

(** The thresholds a cycle works with. *)
Definition configured_days (w : World) : list Z :=
  match domainExpiryNotifyDays w with
  | Some l => l
  | None => [7; 14; 21]%Z
  end.

(** A threshold the loop does not skip. *)
Definition due (days : option Z) (lastSent : JsValue) (targetDays : Z) : bool :=
  negb (skips days lastSent targetDays).

(** The deadlines of the sends made when every due threshold of [l] is
    tried with [n] providers. *)
Definition deadlines_tried (days : option Z) (lastSent : JsValue) (n : nat) (l : list Z)
  : list Z :=
  flat_map (fun t => repeat t n) (List.filter (due days lastSent) l).

Definition failed (a : SendAttempt) : Prop := delivered a = false.

(** The outcome of the loop over the thresholds [l], started in [w]: either
    it fired at a threshold [t] of [l], after every due threshold before
    [t] was tried with every provider and failed, and stored the row with
    [t]; or every due threshold of [l] was tried and failed, and the table is
    as it was. *)
Definition engine_outcome (b : Bean) (days : option Z) (lastSent : JsValue)
    (notificationList : list Provider) (l : list Z) (w : World)
    (run : Outcome JsValue * World) : Prop :=
  let n := length notificationList in
  (exists t pre post before block,
      fst run = Return (JsNumber t)
      /\ l = (pre ++ t :: post)%list
      /\ due days lastSent t = true
      /\ outbox (snd run) = (outbox w ++ before ++ block)%list
      /\ map deadline before = deadlines_tried days lastSent n pre
      /\ Forall failed before
      /\ map deadline block = repeat t n
      /\ map provider block = notificationList
      /\ Exists (fun a => delivered a = true) block
      /\ domain_expiry (snd run)
         = <[domain b := with_lastSent b (JsNumber t)]> (domain_expiry w))
  \/ (exists tried,
      fst run = Return JsUndefined
      /\ outbox (snd run) = (outbox w ++ tried)%list
      /\ map deadline tried = deadlines_tried days lastSent n l
      /\ Forall failed tried
      /\ domain_expiry (snd run) = domain_expiry w).

(** The rule of suppression as the specification words it: a threshold is
    skipped when the days remaining exceed it, or when a notification
    threshold is recorded and is at most it. *)
Definition spec_skips (days : option Z) (lastSent : JsValue) (targetDays : Z) : bool :=
  num_gt days targetDays ||
  match lastSent with
  | JsNumber n => (n <=? targetDays)%Z
  | _ => false
  end.

(** ** Supported monitors *)

(** The target of a monitor of a supported type, when it is a string that
    is not empty. *)
Definition has_target (types : gmap string string) (monitor : Monitor) (target : string)
  : Prop :=
  exists targetField,
    types !! type monitor = Some targetField
    /\ props monitor !! targetField = Some target
    /\ target <> "".

(** ** The monitor type [domain-expiry] *)

Inductive Status : Type := DOWN | UP | PENDING | MAINTENANCE.

Record Heartbeat : Type := mkHeartbeat { status : Status; msg : string }.

Section MonitorType.

Variable Date_parse : string -> JsDate.
Variable parseWhoIsData : string -> list WhoisParam.
Variable URL_host : string -> option string.
Variable whois_lookup : nat -> string -> option string.
Variable parseTld : string -> IResult.
Variable TYPES_WITH_DOMAIN_EXPIRY_SUPPORT_VIA_FIELD : gmap string string.

Definition no_date_message (d : option string) : string :=
  "No registry expiry date was found for domain " +:+ show_opt d.

Definition expired_message (d : option string) (n : Z) : string :=
  "Domain " +:+ show_opt d +:+ " expired " +:+ show_Z (Z.abs n) +:+ " day"
  +:+ (if (Z.abs n =? 1)%Z then "" else "s") +:+ " ago".

Definition up_message (d : option string) (days : option Z) (ms : Z) : string :=
  show_opt d +:+ " expires in " +:+ show_num days +:+ " days ("
  +:+ toISOString ms +:+ ")".

(** The test [!expiryDate || Number.isNaN(expiryDate.getTime())]: the time
    value of the date when the test is false. *)
Definition usable_date (d : option string) (expiryDate : JsValue) : Async Z :=
  if negb (truthy expiryDate) then throw (Error (no_date_message d))
  else match expiryDate with
       | JsDateObj (DateAt ms) => mret ms
       | JsDateObj InvalidDate => throw (Error (no_date_message d))
       | _ => throw (TypeError "expiryDate.getTime is not a function")
       end.

Definition check (monitor : Monitor) (heartbeat : Heartbeat) : Async Heartbeat :=
  supportInfo ← checkSupport parseTld TYPES_WITH_DOMAIN_EXPIRY_SUPPORT_VIA_FIELD monitor;
  expiryDate ← checkExpiry Date_parse parseWhoIsData URL_host whois_lookup
                 (support_domain supportInfo);
  ms ← usable_date (support_domain supportInfo) expiryDate;
  found ← findByDomainNameOrCreate (support_domain supportInfo);
  t ← now;
  match found with
  | None => throw (TypeError "Cannot read properties of null (reading 'daysRemaining')")
  | Some b =>
      let days := daysRemaining t b in
      match days with
      | Some n =>
          if (n <? 0)%Z
          then throw (Error (expired_message (support_domain supportInfo) n))
          else mret (mkHeartbeat UP (up_message (support_domain supportInfo) days ms))
      | None => mret (mkHeartbeat UP (up_message (support_domain supportInfo) days ms))
      end
  end.

End MonitorType.

(** [s] has [sub] inside. *)
Definition contains (s sub : string) : Prop :=
  exists pre post, s = pre +:+ sub +:+ post.

(** ** A run-time for the examples

    Concrete collaborators the examples are evaluated with.  The theorems
    quantify over the collaborators and do not depend on these. *)

(** The host of [http://h] is [h]; a bare host name is not a URL. *)
Definition sample_URL_host (s : string) : option string :=
  if String.prefix "http://" s
  then Some (String.substring 7 (String.length s - 7) s)
  else None.

(** Cuts [s] at the first occurrence of [": "]. *)
Fixpoint cut_colon (before s : string) : option (string * string) :=
  match s with
  | String ":" (String " " rest) => Some (before, rest)
  | String c s' => cut_colon (before +:+ String c EmptyString) s'
  | EmptyString => None
  end.

(** The lines of a text, with the line being read in [cur]. *)
Fixpoint lines_from (cur s : string) : list string :=
  match s with
  | EmptyString => [cur]
  | String c s' =>
      if Ascii.eqb c "010"%char
      then cur :: lines_from EmptyString s'
      else lines_from (cur +:+ String c EmptyString) s'
  end.

(** A reader of [key: value] lines. *)
Definition sample_parseWhoIsData (data : string) : list WhoisParam :=
  omap (fun line => match cut_colon EmptyString line with
                    | Some (k, v) => Some (mkParam k (trim v))
                    | None => None
                    end)
       (lines_from EmptyString data).

(** The table of supported monitor types, with the types [http] and
    [ping]. *)
Definition sample_types : gmap string string :=
  {[ "http" := "url"; "ping" := "hostname" ]}.

(** A world with the one row of [example.com]. *)
Definition one_row_world (t : Z) (expiry_v lastCheck_v lastSent_v : JsValue) : World :=
  mkWorld t
    {[ "example.com" := mkBean "example.com" expiry_v lastCheck_v lastSent_v None ]}
    None [] [].

(** The row expires on 2030-05-01 and was checked [elapsed] milliseconds
    before the clock, which reads 2025-01-03. *)
Definition stale_world (elapsed : N) : World :=
  one_row_world 1735862400000
    (JsIsoText (DateAt 1903824000000))
    (JsIsoText (DateAt (1735862400000 - Z.of_N elapsed)))
    JsNull.

(** The row expires five days and an hour after the clock, which reads
    2025-01-03; no notification was sent, the thresholds are not configured. *)
Definition five_days_world : World :=
  one_row_world 1735862400000
    (JsIsoText (DateAt (1735862400000 + 5 * 86400000 + 3600000)))
    (JsIsoText (DateAt 1735862400000))
    JsNull.

(** The row expires an hour after the clock; the thresholds are 7 and 0. *)
Definition last_day_world : World :=
  mkWorld 1735862400000
    {[ "example.com" :=
         mkBean "example.com" (JsIsoText (DateAt (1735862400000 + 3600000)))
                (JsIsoText (DateAt 1735862400000)) JsNull None ]}
    (Some [7; 0]%Z) [] [].

Definition mail : Provider := mkProvider "mail" "{}".

(** A dispatcher whose every send goes through. *)
Definition always_delivers (n : nat) (p : Provider) (m : string) : bool := true.

(** What a parser of host names answers for a host name that is not valid,
    such as a name that ends with a hyphen: no public suffix. *)
Definition invalid_hostname_result : IResult :=
  mkIResult (Some false) None None None.

(** What it answers for [https://www.example.com/]. *)
Definition example_com_result : IResult :=
  mkIResult (Some false) (Some "www.example.com") (Some "com") (Some "example.com").

Definition http_monitor (url : string) : Monitor :=
  mkMonitor "http" {[ "url" := url ]}.

(** No row yet; the clock reads 2030-04-20. *)
Definition empty_world : World := mkWorld 1902873600000 ∅ None [] [].

(** The registry answers every query with the one line. *)
Definition registry_2030 (n : nat) (d : string) : option string :=
  Some "Registry Expiry Date: 2030-05-01T00:00:00Z".

(** The row holds an expiry and a recorded threshold of 7 days, and was
    never stamped with a check. *)
Definition unchecked_row (expiry_ms : Z) : Bean :=
  mkBean "example.com" (JsIsoText (DateAt expiry_ms)) JsNull (JsNumber 7) None.

Definition unchecked_world (expiry_ms : Z) : World :=
  one_row_world 1735862400000 (JsIsoText (DateAt expiry_ms)) JsNull (JsNumber 7).

(** A world after one lookup of [example.com]. *)
Definition looked_up (w : World) : World :=
  mkWorld (clock w) (domain_expiry w) (domainExpiryNotifyDays w)
          (lookups w ++ ["example.com"]) (outbox w).

(** A registry that cannot be reached. *)
Definition registry_down (n : nat) (d : string) : option string := None.

(** The registry after the renewal to 2026-01-10. *)
Definition registry_renewed (n : nat) (d : string) : option string :=
  Some "Registry Expiry Date: 2026-01-10T00:00:00Z".

(** The registry answers with an expiry in the past. *)
Definition registry_2020 (n : nat) (d : string) : option string :=
  Some "Registry Expiry Date: 2020-01-01".

(** Replies of a registry.  The first has two known keys, as the replies
    for [.com] have; the second indents its lines; the third has a line whose
    key is [__proto__]. *)
Definition reply_two_keys : string :=
  "Registry Expiry Date: 2030-05-01T00:00:00Z" +:+ String "010" ""
  +:+ "Registrar Registration Expiration Date: 2031-05-01T00:00:00Z".

Definition reply_indented : string :=
  "   Registry Expiry Date: 2030-05-01T00:00:00Z".

Definition reply_proto : string :=
  "Domain Name: EXAMPLE.COM" +:+ String "010" "" +:+ "__proto__: x".

(** ** The getters of the bean and the passing of time *)

Section Getters.

Variable parseTld : string -> IResult.

(** The method [parseName]. *)
Definition parseName (b : Bean) : IResult := parseTld (domain b).

(** The getter [tld]. *)
Definition tld (b : Bean) : option string := publicSuffix (parseName b).

End Getters.

(** The world [dt] milliseconds later. *)
Definition tick (dt : N) (w : World) : World :=
  mkWorld (clock w + Z.of_N dt) (domain_expiry w) (domainExpiryNotifyDays w)
          (lookups w) (outbox w).

(** The world once the thresholds were read: the default is persisted when
    the setting was missing. *)
Definition settled (w : World) : World :=
  mkWorld (clock w) (domain_expiry w) (Some (configured_days w)) (lookups w) (outbox w).

(** The text of the notification of [sendDomainNotificationByTargetDays]. *)
Definition notification_message (domainName : option string) (days : option Z) : string :=
  "Domain name " +:+ show_opt domainName +:+ " will expire in "
  +:+ show_num days +:+ " days".

(** [n] spaces. *)
Fixpoint spaces (n : nat) : string :=
  match n with
  | O => EmptyString
  | S n' => String " " (spaces n')
  end.

(** Whether a dot occurs in [s]. *)
Fixpoint has_dot (s : string) : bool :=
  match s with
  | EmptyString => false
  | String c s' => Ascii.eqb c "."%char || has_dot s'
  end.

(** ** The migration that adds [whois_info]

    The table as the schema builder sees it: its columns, and its rows as
    maps from the columns to values.  A statement that the database refuses
    is [None]. *)

Module AddDomainWhoisInfo.








End AddDomainWhoisInfo.

(** ** More of the run-time for the examples *)

(** No URL can be parsed. *)
Definition no_URL_host (s : string) : option string := None.

(** What a parser of host names answers for [localhost]: a public suffix
    and no registrable domain. *)
Definition localhost_result : IResult :=
  mkIResult (Some false) (Some "localhost") (Some "localhost") None.

(** What it answers for [https://www.example.co.uk/path]. *)
Definition example_co_uk_result : IResult :=
  mkIResult (Some false) (Some "www.example.co.uk") (Some "co.uk") (Some "example.co.uk").

(** The registry answers with an expiry twelve hours before 2030-04-20. *)
Definition registry_yesterday (n : nat) (d : string) : option string :=
  Some "Registry Expiry Date: 2030-04-19T12:00:00Z".

(** A dispatcher whose first send fails and whose other sends go through. *)
Definition first_send_fails (n : nat) (p : Provider) (m : string) : bool :=
  negb (n =? 0)%nat.

Definition chat : Provider := mkProvider "chat" "{}".

(** A dispatcher whose every send fails. *)
Definition never_delivers (n : nat) (p : Provider) (m : string) : bool := false.

(** The row of [five_days_world] once the threshold 14 is recorded. *)
Definition fourteen_sent_world : World :=
  one_row_world 1735862400000
    (JsIsoText (DateAt (1735862400000 + 5 * 86400000 + 3600000)))
    (JsIsoText (DateAt 1735862400000))
    (JsNumber 14).

(** The reader of the examples, with the pair [End Text] that closes the
    list of parse-whois. *)
Definition sample_parseWhoIsData_end (data : string) : list WhoisParam :=
  (sample_parseWhoIsData data ++ [mkParam "End Text" ""])%list.

(** The world a day later. *)
Definition day_later (w : World) : World := tick 86400000 w.

(** A reply with no known key. *)
Definition reply_unknown : string :=
  "Domain Name: EXAMPLE.COM" +:+ String "010" "" +:+ "Registrar: Example Registrar".

(** * Properties *)

(** ** The extractor *)

Section ExtractorFacts.

Variable Date_parse : string -> JsDate.
Variable parseWhoIsData : string -> list WhoisParam.

Lemma scan_snoc (l : list WhoisParam) (p : WhoisParam) :
  scan Date_parse (l ++ [p]) = scan_step Date_parse (scan Date_parse l) p.
Proof. unfold scan. now rewrite fold_left_app. Qed.

Lemma find_last_snoc {A : Type} (f : A -> bool) (l : list A) (x : A) :
  find_last f (l ++ [x]) = if f x then Some x else find_last f l.
Proof. unfold find_last. now rewrite rev_unit. Qed.

(** The date the loop ends with is the one of the last matching pair. *)
Lemma scan_date (l : list WhoisParam) :
  fst (scan Date_parse l)
  = (fun p => Date_parse (value p)) <$> find_last is_expiry_key l.
Proof.
  induction l as [|p l IH] using rev_ind; [reflexivity|].
  rewrite scan_snoc, find_last_snoc. unfold scan_step at 1, is_expiry_key at 1.
  cbn [fst].
  destruct (includes WHOIS_EXPIRY_KEYS (trim (attribute p))); [reflexivity|].
  exact IH.
Qed.

(** The object the loop ends with maps a key to the value of the last
    pair that carries it. *)
Lemma scan_info (l : list WhoisParam) (k : string) :
  snd (scan Date_parse l) !! k
  = if String.eqb k "__proto__" then None
    else value <$> find_last (has_attribute k) l.
Proof.
  induction l as [|p l IH] using rev_ind.
  - simpl. rewrite lookup_empty. now destruct (String.eqb k "__proto__").
  - rewrite scan_snoc, find_last_snoc.
    unfold scan_step, obj_set, has_attribute at 1. cbn [snd].
    destruct (String.eqb_spec (attribute p) "__proto__") as [Hp|Hp].
    + rewrite IH. destruct (String.eqb_spec k "__proto__") as [Hk|Hk]; [reflexivity|].
      destruct (String.eqb_spec (attribute p) k) as [E|E]; [congruence|reflexivity].
    + destruct (String.eqb_spec (attribute p) k) as [E|E].
      * subst k. rewrite lookup_insert_eq.
        destruct (String.eqb_spec (attribute p) "__proto__"); [contradiction|reflexivity].
      * rewrite lookup_insert_ne by exact E. exact IH.
Qed.

Lemma resolve_scan_date (st : option JsDate * gmap string string) :
  expiryDate (resolve_scan st)
  = match fst st with Some d => date_or_null d | None => JsNull end.
Proof. unfold resolve_scan. now destruct (fst st) as [[|ms]|]. Qed.

Lemma resolve_scan_info (st : option JsDate * gmap string string) :
  whoisInfo (resolve_scan st) = Some (snd st).
Proof. unfold resolve_scan. now destruct (fst st) as [[|ms]|]. Qed.

(** The date handed on is a valid [Date] object or [null]. *)
Lemma lookup_callback_date_shape (reply : option string) :
  expiryDate (lookup_callback Date_parse parseWhoIsData reply) = JsNull
  \/ exists ms, expiryDate (lookup_callback Date_parse parseWhoIsData reply)
                = JsDateObj (DateAt ms).
Proof.
  destruct reply as [data|]; simpl; [|now left].
  rewrite resolve_scan_date.
  destruct (fst (scan Date_parse (parseWhoIsData data))) as [[|ms]|]; simpl; eauto.
Qed.

End ExtractorFacts.

(** C3, as amended.  For every raw registry text, the extractor builds
    [whoisInfo] as the mapping from every attribute name of the parsed
    sequence (but [__proto__], which an object literal does not take) to
    the value of its last occurrence, and derives [expiryDate] from the LAST
    pair whose attribute name, white space around it removed, is one of the
    known expiry keys: [null] when there is no such pair or when the value of
    that pair does not parse as a date.  The extractor is a total function:
    it has no exception. *)
Theorem extract_postcondition
    (Date_parse : string -> JsDate) (parseWhoIsData : string -> list WhoisParam)
    (data : string) :
  let pairs := parseWhoIsData data in
  let r := lookup_callback Date_parse parseWhoIsData (Some data) in
  (exists info, whoisInfo r = Some info /\
     forall k, info !! k = if String.eqb k "__proto__" then None
                           else value <$> find_last (has_attribute k) pairs)
  /\ expiryDate r =
       match find_last is_expiry_key pairs with
       | Some p => date_or_null (Date_parse (value p))
       | None => JsNull
       end.
Proof.
  intros pairs r. subst r pairs; simpl. split.
  - exists (snd (scan Date_parse (parseWhoIsData data))). split.
    + apply resolve_scan_info.
    + intros k. apply scan_info.
  - rewrite resolve_scan_date, scan_date.
    destruct (find_last is_expiry_key (parseWhoIsData data)); reflexivity.
Qed.

(** C3, counterexample.  On a reply with two known keys the code takes the
    date of the last one, the claim the date of the first.  On a reply whose
    lines are indented the code finds the date, and no attribute name is
    exactly a known key.  On a reply with the key [__proto__] the object of
    the code has no such property. *)
Lemma extract_first_match_cex :
  let extract := lookup_callback Date_parse_iso sample_parseWhoIsData in
  (expiryDate (extract (Some reply_two_keys)) = JsDateObj (DateAt 1935360000000)
   /\ spec_first_expiry Date_parse_iso (sample_parseWhoIsData reply_two_keys)
      = JsDateObj (DateAt 1903824000000))
  /\ (expiryDate (extract (Some reply_indented)) = JsDateObj (DateAt 1903824000000)
      /\ spec_first_expiry Date_parse_iso (sample_parseWhoIsData reply_indented) = JsNull)
  /\ ((whoisInfo (extract (Some reply_proto)) ≫= fun info => info !! "__proto__") = None
      /\ spec_registryInfo (sample_parseWhoIsData reply_proto) !! "__proto__" = Some "x").
Proof. vm_compute. repeat split; reflexivity. Qed.

(** ** The asynchronous calls *)

Lemma bind_Return {A B : Type} (m : Async A) (f : A -> Async B) (w w' : World) (a : A) :
  m w = (Return a, w') -> (m ≫= f) w = f a w'.
Proof. intros H. unfold mbind, Async_bind. now rewrite H. Qed.

Lemma bind_Throw {A B : Type} (m : Async A) (f : A -> Async B) (w w' : World) (e : JsError) :
  m w = (Throw e, w') -> (m ≫= f) w = (Throw e, w').
Proof. intros H. unfold mbind, Async_bind. now rewrite H. Qed.

Ltac run_async :=
  unfold mbind, Async_bind, mret, Async_ret, throw, now, store, findByName in *;
  cbn [fst snd clock domain_expiry domainExpiryNotifyDays lookups outbox] in *.

(** ** Finding the record *)

Lemma findByDomainNameOrCreate_Some (d : string) (w : World) :
  findByDomainNameOrCreate (Some d) w = (Return (bean_for w d), w).
Proof.
  unfold findByDomainNameOrCreate, bean_for. run_async. simpl.
  destruct (domain_expiry w !! d); [reflexivity|].
  now destruct (String.eqb d "").
Qed.

Lemma findByDomainNameOrCreate_None (w : World) :
  findByDomainNameOrCreate None w = (Return None, w).
Proof. reflexivity. Qed.

(** ** The record store: [checkExpiry] *)

Section CheckExpiryFacts.

Variable Date_parse : string -> JsDate.
Variable parseWhoIsData : string -> list WhoisParam.
Variable URL_host : string -> option string.
Variable whois_lookup : nat -> string -> option string.

Local Abbreviation checkExpiry' :=
  (checkExpiry Date_parse parseWhoIsData URL_host whois_lookup).
Local Abbreviation getExpiryDate' :=
  (getExpiryDate Date_parse parseWhoIsData URL_host whois_lookup).
Local Abbreviation whois_query' :=
  (whois_query Date_parse parseWhoIsData whois_lookup).

(** The lookup changes the log of lookups and nothing else. *)
Lemma getExpiryDate_world (b : Bean) (w w1 : World) (result : ExpiryResult) :
  getExpiryDate' b w = (Return result, w1) ->
  exists normalizedDomain,
    w1 = mkWorld (clock w) (domain_expiry w) (domainExpiryNotifyDays w)
                 (lookups w ++ [normalizedDomain]) (outbox w).
Proof.
  unfold getExpiryDate, getWhoisDomainExpiryDate, normalizeDomain, whois_query.
  run_async.
  destruct (String.eqb (domain b) ""); [intros [= _ <-]; eauto|].
  destruct (URL_host (domain b)); [intros [= _ <-]; eauto|].
  destruct (URL_host _); [intros [= _ <-]; eauto|discriminate].
Qed.

Lemma getExpiryDate_frame (b : Bean) (w w1 : World) (result : ExpiryResult) :
  getExpiryDate' b w = (Return result, w1) -> clock w1 = clock w.
Proof.
  intros H. destruct (getExpiryDate_world b w w1 result H) as [nd ->]. reflexivity.
Qed.

(** The throttled branch: the stored field is returned, the world is
    left as it is. *)
Lemma checkExpiry_throttled (d : string) (w : World) (b : Bean) :
  bean_for w d = Some b ->
  checked_recently (clock w) b = true ->
  checkExpiry' (Some d) w = (Return (expiry b), w).
Proof.
  intros Hb Hr. unfold checkExpiry.
  rewrite (bind_Return _ _ w w (Some b))
    by (rewrite findByDomainNameOrCreate_Some; now rewrite Hb).
  run_async. now rewrite Hr.
Qed.

(** The other branch, when the promise of the lookup resolves. *)
Lemma checkExpiry_queried (d : string) (w w1 : World) (b : Bean) (result : ExpiryResult) :
  bean_for w d = Some b ->
  checked_recently (clock w) b = false ->
  getExpiryDate' b w = (Return result, w1) ->
  checkExpiry' (Some d) w
  = (Return (match expiryDate result with JsNull => JsUndefined | v => v end),
     stored_world w1 b result).
Proof.
  intros Hb Hr Hq. unfold checkExpiry.
  rewrite (bind_Return _ _ w w (Some b))
    by (rewrite findByDomainNameOrCreate_Some; now rewrite Hb).
  run_async. rewrite Hr, Hq.
  unfold stored_world. rewrite (getExpiryDate_frame b w w1 result Hq).
  now destruct (expiryDate result).
Qed.

(** The lookup itself has no exception: whatever the client answers,
    the promise resolves. *)
Lemma whois_query_resolves (normalizedDomain : string) (w : World) :
  exists result,
    whois_query' normalizedDomain w
    = (Return result,
       mkWorld (clock w) (domain_expiry w) (domainExpiryNotifyDays w)
               (lookups w ++ [normalizedDomain]) (outbox w))
    /\ (whois_lookup (length (lookups w)) normalizedDomain = None ->
        result = mkResult JsNull None).
Proof.
  eexists. split; [reflexivity|]. intros H. now rewrite H.
Qed.

(** A lookup stamped in the past, however long ago, counts as recent. *)
Lemma checked_recently_past (t c : Z) (b : Bean) :
  lastCheck b = JsIsoText (DateAt c) ->
  (c <= t)%Z ->
  checked_recently t b = true.
Proof.
  intros Hl Hle. unfold checked_recently. rewrite Hl. simpl.
  apply Z.ltb_lt.
  replace (c - t)%Z with (- (t - c))%Z by lia.
  rewrite Z.quot_opp_l by (unfold MILLISECONDS_A_DAY; lia).
  assert (0 <= Z.quot (t - c) MILLISECONDS_A_DAY)%Z
    by (apply Z.quot_pos; unfold MILLISECONDS_A_DAY; lia).
  lia.
Qed.

End CheckExpiryFacts.

(** C1, the code at the failing input.  However long ago the row was last
    checked (two days, a year), [checkExpiry] takes the throttled branch:
    it answers with the stored expiry and issues no lookup, the world and its
    log of lookups are left as they were.  The operands of [diff] are in the
    order [lastCheck.diff(now)], which is never positive for a check in the
    past, so the test [< 1] holds for every age of the record. *)
Theorem checkExpiry_stale_record_not_requeried
    (Date_parse : string -> JsDate) (parseWhoIsData : string -> list WhoisParam)
    (URL_host : string -> option string) (whois_lookup : nat -> string -> option string)
    (elapsed : N) :
  checkExpiry Date_parse parseWhoIsData URL_host whois_lookup
              (Some "example.com") (stale_world elapsed)
  = (Return (JsIsoText (DateAt 1903824000000)), stale_world elapsed).
Proof.
  apply (checkExpiry_throttled _ _ _ _ "example.com" (stale_world elapsed)
           (mkBean "example.com" (JsIsoText (DateAt 1903824000000))
                   (JsIsoText (DateAt (1735862400000 - Z.of_N elapsed))) JsNull None)).
  - reflexivity.
  - apply (checked_recently_past _ (1735862400000 - Z.of_N elapsed)); [reflexivity|].
    simpl. lia.
Qed.

Section RecordStoreClaims.

Variable Date_parse : string -> JsDate.
Variable parseWhoIsData : string -> list WhoisParam.
Variable URL_host : string -> option string.
Variable whois_lookup : nat -> string -> option string.

Local Abbreviation checkExpiry' :=
  (checkExpiry Date_parse parseWhoIsData URL_host whois_lookup).
Local Abbreviation getExpiryDate' :=
  (getExpiryDate Date_parse parseWhoIsData URL_host whois_lookup).
Local Abbreviation whois_query' :=
  (whois_query Date_parse parseWhoIsData whois_lookup).

(** C2, as amended.  A cycle of [checkExpiry] that queries the registry
    and in which the extractor finds no date returns [undefined] and stores
    the row again: [expiry] is not rewritten to [null], [lastCheck] is
    stamped with the current time, [whois_info] takes the registry info of
    the cycle; [lastExpiryNotificationSent] and [domain] are untouched. *)
Theorem failed_check_effect (d : string) (w w1 : World) (b : Bean) (result : ExpiryResult) :
  bean_for w d = Some b ->
  checked_recently (clock w) b = false ->
  getExpiryDate' b w = (Return result, w1) ->
  expiryDate result = JsNull ->
  exists w' b',
    checkExpiry' (Some d) w = (Return JsUndefined, w')
    /\ domain_expiry w' !! domain b = Some b'
    /\ expiry b' <> JsNull
    /\ lastCheck b' = JsIsoText (DateAt (clock w))
    /\ whois_info b' = whoisInfo result
    /\ lastExpiryNotificationSent b' = lastExpiryNotificationSent b
    /\ domain b' = domain b.
Proof.
  intros Hb Hr Hq Hnull.
  eexists. eexists. split.
  - rewrite (checkExpiry_queried _ _ _ _ d w w1 b result Hb Hr Hq).
    rewrite Hnull. reflexivity.
  - unfold stored_world. cbn [domain_expiry]. split; [apply lookup_insert_eq|].
    rewrite Hnull. cbn.
    rewrite (getExpiryDate_frame _ _ _ _ b w w1 result Hq).
    repeat split; try reflexivity. discriminate.
Qed.

(** C4.  When a cycle of [checkExpiry] extracts an expiry date strictly
    later than the expiry the record had, the row is stored with
    [lastExpiryNotificationSent] cleared to [null] together with the new
    expiry; with an equal or an earlier date the row keeps the value it
    had. *)
Theorem renewal_resets_suppression
    (d : string) (w w1 : World) (b : Bean) (result : ExpiryResult) (old new : Z) :
  bean_for w d = Some b ->
  checked_recently (clock w) b = false ->
  getExpiryDate' b w = (Return result, w1) ->
  expiry b = JsIsoText (DateAt old) ->
  expiryDate result = JsDateObj (DateAt new) ->
  exists w' b',
    checkExpiry' (Some d) w = (Return (JsDateObj (DateAt new)), w')
    /\ domain_expiry w' !! domain b = Some b'
    /\ expiry b' = JsIsoText (DateAt new)
    /\ ((old < new)%Z -> lastExpiryNotificationSent b' = JsNull)
    /\ ((new <= old)%Z ->
        lastExpiryNotificationSent b' = lastExpiryNotificationSent b).
Proof.
  intros Hb Hr Hq Hold Hnew.
  eexists. eexists. split.
  - rewrite (checkExpiry_queried _ _ _ _ d w w1 b result Hb Hr Hq).
    rewrite Hnew. reflexivity.
  - unfold stored_world. cbn [domain_expiry]. split; [apply lookup_insert_eq|].
    rewrite Hnew, Hold. cbn. split; [reflexivity|]. split; intros H.
    + apply Z.ltb_lt in H. now rewrite H.
    + apply Z.ltb_ge in H. now rewrite H.
Qed.

(** C7.  An error of the lookup is turned into the value
    [{ expiryDate: null, whoisInfo: null }]; the promise of the lookup
    resolves for every answer of the client, it is never rejected; and
    whenever the date extracted in a cycle is [null], [checkExpiry] returns
    [undefined]: no exception, and no stored date in its place. *)
Theorem soft_failure_propagation :
  lookup_callback Date_parse parseWhoIsData None = mkResult JsNull None
  /\ (forall (normalizedDomain : string) (w : World),
        exists result w',
          whois_query' normalizedDomain w = (Return result, w')
          /\ (whois_lookup (length (lookups w)) normalizedDomain = None ->
              result = mkResult JsNull None))
  /\ (forall (d : string) (w w1 : World) (b : Bean) (result : ExpiryResult),
        bean_for w d = Some b ->
        checked_recently (clock w) b = false ->
        getExpiryDate' b w = (Return result, w1) ->
        expiryDate result = JsNull ->
        fst (checkExpiry' (Some d) w) = Return JsUndefined).
Proof.
  split; [reflexivity|]. split.
  - intros nd w.
    destruct (whois_query_resolves Date_parse parseWhoIsData whois_lookup nd w)
      as (result & Hq & Hnone).
    eauto.
  - intros d w w1 b result Hb Hr Hq Hnull.
    rewrite (checkExpiry_queried _ _ _ _ d w w1 b result Hb Hr Hq).
    now rewrite Hnull.
Qed.

End RecordStoreClaims.

(** C2, counterexample.  The row of [example.com] holds the expiry
    2030-05-01 and no [lastCheck]; the lookup calls back with an error.  The
    cycle queries, returns [undefined], and the row it stores has another
    [expiry] and another [lastCheck] than before. *)
Lemma failed_check_frame_cex :
  let prior := JsIsoText (DateAt 1903824000000) in
  let w := one_row_world 1735862400000 prior JsNull (JsNumber 7) in
  let run := checkExpiry Date_parse_iso sample_parseWhoIsData sample_URL_host
                         registry_down (Some "example.com") w in
  fst run = Return JsUndefined
  /\ lookups (snd run) = ["example.com"]
  /\ (expiry <$> domain_expiry (snd run) !! "example.com") = Some (JsIsoText InvalidDate)
  /\ (expiry <$> domain_expiry (snd run) !! "example.com") <> Some prior
  /\ (lastCheck <$> domain_expiry (snd run) !! "example.com")
     = Some (JsIsoText (DateAt 1735862400000))
  /\ (lastCheck <$> domain_expiry (snd run) !! "example.com") <> Some JsNull.
Proof. vm_compute. repeat split; discriminate. Qed.

(** ** The threshold engine *)

Lemma insert_asc_perm (x : Z) (l : list Z) : Permutation (insert_asc x l) (x :: l).
Proof.
  induction l as [|y l IH]; simpl; [apply Permutation_refl|].
  destruct (x <=? y)%Z; [apply Permutation_refl|].
  eapply Permutation_trans; [apply perm_skip, IH|apply perm_swap].
Qed.

Lemma sort_asc_perm (l : list Z) : Permutation (sort_asc l) l.
Proof.
  induction l as [|x l IH]; simpl; [apply perm_nil|].
  eapply Permutation_trans; [apply insert_asc_perm|apply perm_skip, IH].
Qed.

Lemma insert_asc_sorted (x : Z) (l : list Z) :
  StronglySorted Z.le l -> StronglySorted Z.le (insert_asc x l).
Proof.
  induction 1 as [|y l Hs IH Hy]; simpl.
  - constructor; constructor.
  - destruct (Z.leb_spec x y) as [Hle|Hgt].
    + constructor; [constructor; assumption|].
      constructor; [exact Hle|].
      eapply List.Forall_impl; [|exact Hy]. intros z Hz. simpl in Hz. lia.
    + constructor; [exact IH|].
      eapply Permutation_Forall; [apply Permutation_sym, insert_asc_perm|].
      constructor; [lia|exact Hy].
Qed.

Lemma sort_asc_sorted (l : list Z) : StronglySorted Z.le (sort_asc l).
Proof.
  induction l as [|x l IH]; simpl; [constructor|].
  now apply insert_asc_sorted.
Qed.

Section EngineFacts.

Variable Notification_send : nat -> Provider -> string -> bool.

(** A call of [sendDomainNotificationByTargetDays] tries every provider
    once, in order, and answers whether a send went through. *)
Lemma send_each_run (domainName : option string) (days : option Z) (targetDays : Z)
    (notificationList : list Provider) :
  forall (sent : bool) (w : World),
  exists block,
    send_each Notification_send domainName days targetDays sent notificationList w
    = (Return (sent || existsb delivered block),
       mkWorld (clock w) (domain_expiry w) (domainExpiryNotifyDays w) (lookups w)
               (outbox w ++ block))
    /\ map deadline block = repeat targetDays (length notificationList)
    /\ map provider block = notificationList.
Proof.
  induction notificationList as [|p rest IH]; intros sent w.
  - exists []. simpl. unfold mret, Async_ret.
    rewrite orb_false_r, app_nil_r. now destruct w.
  - simpl. run_async.
    match goal with |- context [mkAttempt ?t ?q ?m ?ok] => set (a := mkAttempt t q m ok) end.
    destruct (IH (sent || delivered a)
                (mkWorld (clock w) (domain_expiry w) (domainExpiryNotifyDays w)
                         (lookups w) (outbox w ++ [a])))
      as (block & Hrun & Hdl & Hpr).
    exists (a :: block). simpl. split; [|split].
    + simpl in Hrun. subst a. simpl in *. rewrite Hrun.
      rewrite <- app_assoc, orb_assoc. reflexivity.
    + now rewrite Hdl.
    + now rewrite Hpr.
Qed.

Lemma existsb_false_failed (block : list SendAttempt) :
  existsb delivered block = false -> Forall failed block.
Proof.
  induction block as [|a block IH]; simpl; [constructor|].
  intros H. apply orb_false_iff in H as [Ha Hb]. constructor; [exact Ha|auto].
Qed.

Lemma existsb_true_delivered (block : list SendAttempt) :
  existsb delivered block = true -> Exists (fun a => delivered a = true) block.
Proof.
  induction block as [|a block IH]; simpl; [discriminate|].
  intros H. apply orb_true_iff in H as [Ha|Hb].
  - now apply Exists_cons_hd.
  - apply Exists_cons_tl. auto.
Qed.

Lemma deadlines_tried_skip (days : option Z) (lastSent : JsValue) (n : nat)
    (t : Z) (l : list Z) :
  due days lastSent t = false ->
  deadlines_tried days lastSent n (t :: l) = deadlines_tried days lastSent n l.
Proof. intros H. unfold deadlines_tried. simpl. now rewrite H. Qed.

Lemma deadlines_tried_due (days : option Z) (lastSent : JsValue) (n : nat)
    (t : Z) (l : list Z) :
  due days lastSent t = true ->
  deadlines_tried days lastSent n (t :: l)
  = (repeat t n ++ deadlines_tried days lastSent n l)%list.
Proof. intros H. unfold deadlines_tried. simpl. now rewrite H. Qed.

(** A skipped threshold in front changes nothing of the outcome. *)
Lemma engine_outcome_skip (b : Bean) (days : option Z) (lastSent : JsValue)
    (notificationList : list Provider) (t : Z) (l : list Z) (w : World)
    (run : Outcome JsValue * World) :
  due days lastSent t = false ->
  engine_outcome b days lastSent notificationList l w run ->
  engine_outcome b days lastSent notificationList (t :: l) w run.
Proof.
  intros Hskip [(t' & pre & post & before & block & Hr & Hl & Hd & Ho & Hb & Hf & Hk & Hp & He & Ht)
               |(tried & Hr & Ho & Hd & Hf & Ht)].
  - left. exists t', (t :: pre), post, before, block.
    rewrite deadlines_tried_skip by exact Hskip. subst l. auto 12.
  - right. exists tried. rewrite deadlines_tried_skip by exact Hskip. auto.
Qed.

(** The loop over the thresholds. *)
Lemma notify_loop_outcome (domainName : option string) (b : Bean) (days : option Z)
    (lastSent : JsValue) (notificationList : list Provider) (l : list Z) :
  forall w : World,
    engine_outcome b days lastSent notificationList l w
      (notify_loop Notification_send domainName b days lastSent notificationList l w).
Proof.
  induction l as [|t l IH]; intros w.
  - right. exists []. simpl. unfold mret, Async_ret. simpl.
    rewrite app_nil_r. auto.
  - simpl.
    destruct (not_due days t) eqn:Hnd.
    { apply engine_outcome_skip; [|apply IH]. unfold due, skips. now rewrite Hnd. }
    destruct (sent_already lastSent t) eqn:Hsa.
    { apply engine_outcome_skip; [|apply IH].
      unfold due, skips. rewrite Hsa. now rewrite orb_true_r. }
    assert (Hdue : due days lastSent t = true)
      by (unfold due, skips; now rewrite Hnd, Hsa).
    unfold sendDomainNotificationByTargetDays.
    destruct (send_each_run domainName days t notificationList false w)
      as (block & Hrun & Hdl & Hpr).
    cbn [orb] in Hrun. rewrite (bind_Return _ _ _ _ _ Hrun).
    destruct (existsb delivered block) eqn:Hsent; cbv beta iota.
    + left. exists t, [], l, [], block. run_async. simpl.
      repeat split; auto using existsb_true_delivered.
    + specialize (IH (mkWorld (clock w) (domain_expiry w) (domainExpiryNotifyDays w)
                              (lookups w) (outbox w ++ block))).
      destruct IH as [(t' & pre & post & before & block' & Hr & Hl & Hd & Ho & Hb & Hf & Hk & Hp & He & Ht)
                     |(tried & Hr & Ho & Hd & Hf & Ht)].
      * left. exists t', (t :: pre), post, (block ++ before)%list, block'.
        rewrite deadlines_tried_due by exact Hdue.
        simpl in Ho, Ht. subst l.
        split; [exact Hr|]. split; [reflexivity|]. split; [exact Hd|].
        split; [rewrite Ho; now rewrite <- !app_assoc|].
        split; [rewrite map_app, Hdl, Hb; reflexivity|].
        split; [apply Forall_app; split; [now apply existsb_false_failed|exact Hf]|].
        split; [exact Hk|]. split; [exact Hp|]. split; [exact He|exact Ht].
      * right. exists (block ++ tried)%list.
        rewrite deadlines_tried_due by exact Hdue.
        simpl in Ho, Ht.
        split; [exact Hr|].
        split; [rewrite Ho; now rewrite <- !app_assoc|].
        split; [rewrite map_app, Hdl, Hd; reflexivity|].
        split; [apply Forall_app; split; [now apply existsb_false_failed|exact Hf]|].
        exact Ht.
Qed.

End EngineFacts.

(** The day of the deadline is inside the window. *)
Lemma not_due_boundary (t : Z) : not_due (Some t) t = false.
Proof. unfold not_due, num_gt. apply Z.ltb_irrefl. Qed.

(** With no notification recorded, or with a recorded threshold other than
    zero, the loop skips as the specification says. *)
Lemma skips_as_specified (days : option Z) (lastSent : JsValue) (t : Z) :
  lastSent = JsUndefined \/ lastSent = JsNull
  \/ (exists n, lastSent = JsNumber n /\ n <> 0%Z) ->
  skips days lastSent t = spec_skips days lastSent t.
Proof.
  intros [-> | [-> | (n & -> & Hn)]]; try reflexivity.
  unfold skips, spec_skips, sent_already. simpl.
  apply Z.eqb_neq in Hn. now rewrite Hn.
Qed.

(** A notification sent at a larger threshold does not suppress a smaller
    one. *)
Lemma larger_threshold_does_not_suppress (days n t : Z) :
  (days <= t)%Z -> (t < n)%Z -> skips (Some days) (JsNumber n) t = false.
Proof.
  intros Hd Hn. unfold skips, not_due, sent_already, num_gt. simpl.
  apply orb_false_iff. split; [apply Z.ltb_ge; lia|].
  apply andb_false_iff. right. apply Z.leb_gt. lia.
Qed.

(** C5.  For a record with a valid expiry and a list of providers that is
    not empty, [sendNotifications] walks the thresholds in ascending order
    (the sorted list is a permutation of the configured one) and ends in one
    of two ways.  Either it fired at a due threshold [t]: every due
    threshold before [t] was tried with every provider and every one of those
    sends failed, at [t] every provider was tried and a send went through,
    the row is stored with [lastExpiryNotificationSent = t], [t] is returned
    and nothing is sent for the thresholds after [t].  Or every due
    threshold was tried, every send failed, and the table is as it was. *)
Theorem one_notification_smallest_first
    (Notification_send : nat -> Provider -> string -> bool)
    (d : string) (w : World) (b : Bean) (e : Z) (notificationList : list Provider) :
  bean_for w d = Some b ->
  expiry b = JsIsoText (DateAt e) ->
  notificationList <> [] ->
  let sorted := sort_asc (configured_days w) in
  StronglySorted Z.le sorted
  /\ Permutation sorted (configured_days w)
  /\ engine_outcome b (daysRemaining (clock w) b) (lastExpiryNotificationSent b)
       notificationList sorted w
       (sendNotifications Notification_send (Some d) notificationList w).
Proof.
  intros Hb He Hne sorted. subst sorted.
  split; [apply sort_asc_sorted|]. split; [apply sort_asc_perm|].
  unfold sendNotifications.
  rewrite (bind_Return _ _ w w (Some b))
    by (rewrite findByDomainNameOrCreate_Some; now rewrite Hb).
  destruct notificationList as [|p rest]; [contradiction|].
  rewrite He. cbn [truthy new_Date is_invalid negb orb].
  unfold configured_days, load_notifyDays. run_async.
  destruct (domainExpiryNotifyDays w) as [l|].
  - apply (notify_loop_outcome Notification_send (Some d) b _ _ (p :: rest) _ w).
  - pose proof (notify_loop_outcome Notification_send (Some d) b
                  (daysRemaining (clock w) b) (lastExpiryNotificationSent b) (p :: rest)
                  (sort_asc [7; 14; 21]%Z)
                  (mkWorld (clock w) (domain_expiry w) (Some [7; 14; 21]%Z)
                           (lookups w) (outbox w))) as H.
    exact H.
Qed.

(** C6, the code at the failing input.  The thresholds are 7 and 0 and the
    domain expires within the day.  The first cycle fires at the threshold
    0 and records it.  In the second cycle the recorded threshold is set and
    is at most 0, so the rule of the claim skips the threshold; the code
    tests the truth of the recorded number, takes 0 for no record, and sends
    the notification of the threshold 0 again. *)
Theorem zero_threshold_sent_again :
  let run1 := sendNotifications always_delivers (Some "example.com") [mail] last_day_world in
  let run2 := sendNotifications always_delivers (Some "example.com") [mail] (snd run1) in
  fst run1 = Return (JsNumber 0)
  /\ (lastExpiryNotificationSent <$> domain_expiry (snd run1) !! "example.com")
     = Some (JsNumber 0)
  /\ spec_skips (Some 0%Z) (JsNumber 0) 0 = true
  /\ skips (Some 0%Z) (JsNumber 0) 0 = false
  /\ fst run2 = Return (JsNumber 0)
  /\ map deadline (outbox (snd run2)) = [0; 0]%Z.
Proof. vm_compute. repeat split; reflexivity. Qed.

(** ** [checkSupport] *)

Section SupportFacts.

Variable parseTld : string -> IResult.
Variable TYPES_WITH_DOMAIN_EXPIRY_SUPPORT_VIA_FIELD : gmap string string.

Local Abbreviation checkSupport' :=
  (checkSupport parseTld TYPES_WITH_DOMAIN_EXPIRY_SUPPORT_VIA_FIELD).

Local Abbreviation has_target' :=
  (has_target TYPES_WITH_DOMAIN_EXPIRY_SUPPORT_VIA_FIELD).

Lemma checkSupport_parsed (monitor : Monitor) (target : string) (w : World) :
  has_target' monitor target ->
  checkSupport' monitor w
  = match isIp (parseTld target) with
    | Some true => (Throw (TranslatableError "domain_expiry_unsupported_is_ip"), w)
    | _ =>
        match publicSuffix (parseTld target) with
        | None => (Throw (TypeError "Cannot read properties of null (reading 'length')"), w)
        | Some ps =>
            if (String.length ps <? 2)%nat
            then (Throw (TranslatableError "domain_expiry_public_suffix_too_short"), w)
            else (Return (mkSupport (tld_domain (parseTld target)) (pop (split_dot ps))), w)
        end
    end.
Proof.
  intros (targetField & Ht & Hp & Hne). unfold checkSupport. rewrite Ht, Hp.
  destruct target as [|c target]; [contradiction|].
  destruct (isIp (parseTld (String c target))) as [[|]|];
    destruct (publicSuffix (parseTld (String c target))) as [ps|]; try reflexivity;
    destruct (String.length ps <? 2)%nat; reflexivity.
Qed.

(** A public suffix of fewer than two characters is the typed failure. *)
Lemma checkSupport_suffix_too_short (monitor : Monitor) (target ps : string) (w : World) :
  has_target' monitor target ->
  isIp (parseTld target) <> Some true ->
  publicSuffix (parseTld target) = Some ps ->
  (String.length ps < 2)%nat ->
  checkSupport' monitor w
  = (Throw (TranslatableError "domain_expiry_public_suffix_too_short"), w).
Proof.
  intros Ht Hip Hps Hlen. rewrite (checkSupport_parsed monitor target w Ht), Hps.
  apply Nat.ltb_lt in Hlen. rewrite Hlen.
  destruct (isIp (parseTld target)) as [[|]|]; [contradiction|reflexivity|reflexivity].
Qed.

(** The shape of the success: the registrable domain the parser gives and
    the last label of the public suffix. *)
Lemma checkSupport_success (monitor : Monitor) (target ps : string) (w : World) :
  has_target' monitor target ->
  isIp (parseTld target) <> Some true ->
  publicSuffix (parseTld target) = Some ps ->
  (2 <= String.length ps)%nat ->
  checkSupport' monitor w
  = (Return (mkSupport (tld_domain (parseTld target)) (List.last (split_dot ps) "")), w).
Proof.
  intros Ht Hip Hps Hlen. rewrite (checkSupport_parsed monitor target w Ht), Hps.
  apply Nat.ltb_ge in Hlen. rewrite Hlen.
  destruct (isIp (parseTld target)) as [[|]|]; [contradiction|reflexivity|reflexivity].
Qed.

(** [checkSupport] reads the monitor only. *)
Lemma checkSupport_world (monitor : Monitor) (w : World) :
  snd (checkSupport' monitor w) = w.
Proof.
  unfold checkSupport.
  destruct (_ !! type monitor) as [f|]; [|reflexivity].
  destruct (props monitor !! f) as [[|c target]|]; try reflexivity.
  destruct (isIp (parseTld (String c target))) as [[|]|];
    destruct (publicSuffix (parseTld (String c target))) as [ps|]; try reflexivity;
    destruct (String.length ps <? 2)%nat; reflexivity.
Qed.

End SupportFacts.

Example root_tld_of_co_uk : pop (split_dot "co.uk") = "uk".
Proof. reflexivity. Qed.

(** C8, the code where the parser recognises no public suffix.  For a
    supported monitor whose target is a string that is not empty and not an IP
    address, and for which the parser answers with the public suffix [null],
    [checkSupport] reads [length] of [null]: the failure is a [TypeError] of
    the engine, not the typed failure of a suffix that is too short. *)
Theorem checkSupport_null_suffix_untyped
    (parseTld : string -> IResult)
    (TYPES_WITH_DOMAIN_EXPIRY_SUPPORT_VIA_FIELD : gmap string string)
    (monitor : Monitor) (target : string) (w : World) :
  has_target TYPES_WITH_DOMAIN_EXPIRY_SUPPORT_VIA_FIELD monitor target ->
  isIp (parseTld target) <> Some true ->
  publicSuffix (parseTld target) = None ->
  checkSupport parseTld TYPES_WITH_DOMAIN_EXPIRY_SUPPORT_VIA_FIELD monitor w
  = (Throw (TypeError "Cannot read properties of null (reading 'length')"), w).
Proof.
  intros Ht Hip Hps. rewrite (checkSupport_parsed _ _ monitor target w Ht), Hps.
  destruct (isIp (parseTld target)) as [[|]|]; [contradiction|reflexivity|reflexivity].
Qed.

Lemma checkSupport_null_suffix_untyped_witness :
  checkSupport (fun _ => invalid_hostname_result) sample_types
               (http_monitor "my-site-") empty_world
  = (Throw (TypeError "Cannot read properties of null (reading 'length')"), empty_world).
Proof.
  apply (checkSupport_null_suffix_untyped _ _ _ "my-site-").
  - exists "url". split; [reflexivity|]. split; [reflexivity|discriminate].
  - discriminate.
  - reflexivity.
Defined.

(** ** The monitor adapter *)

Lemma append_assoc (a b c : string) : (a +:+ b) +:+ c = a +:+ b +:+ c.
Proof.
  induction a as [|x a IH]; [reflexivity|].
  change (String x ((a +:+ b) +:+ c) = String x (a +:+ b +:+ c)). now rewrite IH.
Qed.

Lemma append_empty_r (a : string) : a +:+ "" = a.
Proof.
  induction a as [|x a IH]; [reflexivity|].
  change (String x (a +:+ "") = String x a). now rewrite IH.
Qed.

Lemma up_message_contains_days (d : option string) (n ms : Z) :
  contains (up_message d (Some n) ms) (show_Z n +:+ " days").
Proof.
  exists (show_opt d +:+ " expires in "), (" (" +:+ toISOString ms +:+ ")").
  unfold up_message, show_num. now rewrite !append_assoc.
Qed.

Lemma expired_message_contains_days (d : option string) (n : Z) :
  contains (expired_message d n) ("expired " +:+ show_Z (Z.abs n) +:+ " day").
Proof.
  exists ("Domain " +:+ show_opt d +:+ " "),
         ((if (Z.abs n =? 1)%Z then "" else "s") +:+ " ago").
  unfold expired_message. rewrite !append_assoc. reflexivity.
Qed.

Lemma no_date_message_names (d : option string) :
  contains (no_date_message d) (show_opt d).
Proof.
  exists "No registry expiry date was found for domain ", "".
  unfold no_date_message. now rewrite append_empty_r.
Qed.

Section AdapterFacts.

Variable Date_parse : string -> JsDate.
Variable parseWhoIsData : string -> list WhoisParam.
Variable URL_host : string -> option string.
Variable whois_lookup : nat -> string -> option string.
Variable parseTld : string -> IResult.
Variable TYPES_WITH_DOMAIN_EXPIRY_SUPPORT_VIA_FIELD : gmap string string.

Local Abbreviation checkSupport' :=
  (checkSupport parseTld TYPES_WITH_DOMAIN_EXPIRY_SUPPORT_VIA_FIELD).
Local Abbreviation checkExpiry' :=
  (checkExpiry Date_parse parseWhoIsData URL_host whois_lookup).
Local Abbreviation getExpiryDate' :=
  (getExpiryDate Date_parse parseWhoIsData URL_host whois_lookup).
Local Abbreviation check' :=
  (check Date_parse parseWhoIsData URL_host whois_lookup parseTld
         TYPES_WITH_DOMAIN_EXPIRY_SUPPORT_VIA_FIELD).

(** The check, once the monitor is found supported and [checkExpiry] has
    answered. *)
Lemma check_after_checkExpiry (monitor : Monitor) (heartbeat : Heartbeat)
    (w w1 : World) (info : SupportInfo) (v : JsValue) :
  checkSupport' monitor w = (Return info, w) ->
  checkExpiry' (support_domain info) w = (Return v, w1) ->
  check' monitor heartbeat w
  = (usable_date (support_domain info) v ≫= fun ms =>
     findByDomainNameOrCreate (support_domain info) ≫= fun found =>
     now ≫= fun t =>
     match found with
     | None => throw (TypeError "Cannot read properties of null (reading 'daysRemaining')")
     | Some b =>
         match daysRemaining t b with
         | Some n =>
             if (n <? 0)%Z
             then throw (Error (expired_message (support_domain info) n))
             else mret (mkHeartbeat UP (up_message (support_domain info)
                                                   (daysRemaining t b) ms))
         | None => mret (mkHeartbeat UP (up_message (support_domain info)
                                                    (daysRemaining t b) ms))
         end
     end) w1.
Proof.
  intros Hs He. unfold check.
  rewrite (bind_Return _ _ _ _ _ Hs). rewrite (bind_Return _ _ _ _ _ He).
  reflexivity.
Qed.

(** The adapter on the cycle that decides.  For a supported monitor: when
    the cycle looks the domain up and extracts a valid date, the days
    remaining are counted from the stored row; if they are negative the check
    throws an error whose message says the domain expired that many days
    ago, and otherwise the heartbeat is set to UP with a message that has the
    days remaining in it.  When [checkExpiry] answers with no date, the
    check throws an error whose message names the domain. *)
Theorem adapter_failure_semantics (monitor : Monitor) (heartbeat : Heartbeat)
    (w : World) (info : SupportInfo) :
  checkSupport' monitor w = (Return info, w) ->
  (forall (d : string) (b : Bean) (w1 : World) (result : ExpiryResult) (ms : Z),
      support_domain info = Some d ->
      bean_for w d = Some b ->
      domain b = d ->
      checked_recently (clock w) b = false ->
      getExpiryDate' b w = (Return result, w1) ->
      expiryDate result = JsDateObj (DateAt ms) ->
      let n := Z.quot (ms - clock w) MILLISECONDS_A_DAY in
      ((n < 0)%Z ->
       fst (check' monitor heartbeat w) = Throw (Error (expired_message (Some d) n))
       /\ contains (expired_message (Some d) n)
                   ("expired " +:+ show_Z (Z.abs n) +:+ " day"))
      /\ ((0 <= n)%Z ->
          fst (check' monitor heartbeat w)
          = Return (mkHeartbeat UP (up_message (Some d) (Some n) ms))
          /\ contains (up_message (Some d) (Some n) ms) (show_Z n +:+ " days")))
  /\ (forall (v : JsValue) (w1 : World),
        checkExpiry' (support_domain info) w = (Return v, w1) ->
        truthy v = false ->
        fst (check' monitor heartbeat w)
        = Throw (Error (no_date_message (support_domain info)))
        /\ contains (no_date_message (support_domain info))
                    (show_opt (support_domain info))).
Proof.
  intros Hs. split.
  - intros d b w1 result ms Hd Hb Hdom Hr Hq Hdate n.
    pose proof (checkExpiry_queried _ _ _ _ d w w1 b result Hb Hr Hq) as He.
    rewrite Hdate in He. rewrite <- Hd in He.
    assert (Hfind : findByDomainNameOrCreate (Some d) (stored_world w1 b result)
                    = (Return (Some (mkBean (domain b) (JsIsoText (DateAt ms))
                                            (JsIsoText (DateAt (clock w)))
                                            (if isAfter (DateAt ms) (dayjs_utc (clock w) (expiry b))
                                             then JsNull else lastExpiryNotificationSent b)
                                            (whoisInfo result))),
                       stored_world w1 b result)).
    { rewrite findByDomainNameOrCreate_Some. f_equal. unfold bean_for, stored_world.
      cbn [domain_expiry]. rewrite Hdom, lookup_insert_eq, Hdate.
      rewrite (getExpiryDate_frame _ _ _ _ b w w1 result Hq). reflexivity. }
    assert (Hc : clock (stored_world w1 b result) = clock w)
      by (unfold stored_world; cbn [clock];
          apply (getExpiryDate_frame _ _ _ _ b w w1 result Hq)).
    assert (Hrun : check' monitor heartbeat w
                   = (if (n <? 0)%Z
                      then Throw (Error (expired_message (Some d) n))
                      else Return (mkHeartbeat UP (up_message (Some d) (Some n) ms)),
                      stored_world w1 b result)).
    { rewrite (check_after_checkExpiry monitor heartbeat w _ info _ Hs He).
      rewrite Hd. unfold usable_date. cbn [truthy negb].
      unfold mbind at 1, Async_bind at 1, mret at 1, Async_ret at 1.
      rewrite (bind_Return _ _ _ _ _ Hfind).
      unfold mbind, Async_bind, now.
      rewrite Hc. unfold daysRemaining. cbn [expiry dayjs_utc diff_day].
      fold n. now destruct (n <? 0)%Z. }
    rewrite Hrun. split; intros Hn.
    + apply Z.ltb_lt in Hn. rewrite Hn. split; [reflexivity|].
      apply expired_message_contains_days.
    + apply Z.ltb_ge in Hn. rewrite Hn. split; [reflexivity|].
      apply up_message_contains_days.
  - intros v w1 He Hv.
    rewrite (check_after_checkExpiry monitor heartbeat w w1 info v Hs He).
    unfold usable_date. rewrite Hv. split; [reflexivity|].
    apply no_date_message_names.
Qed.

(** C10.  On the throttled branch [checkExpiry] answers with the field
    [expiry] as it is stored, and the world is untouched; when the field
    holds the text of a date, the adapter calls [getTime] on a string and
    the check ends with a [TypeError], not with a heartbeat or with one of
    the errors of the adapter. *)
Theorem cache_hit_returns_stored_text (monitor : Monitor) (heartbeat : Heartbeat)
    (w : World) (info : SupportInfo) (d : string) (b : Bean) :
  checkSupport' monitor w = (Return info, w) ->
  support_domain info = Some d ->
  bean_for w d = Some b ->
  checked_recently (clock w) b = true ->
  checkExpiry' (Some d) w = (Return (expiry b), w)
  /\ (forall x : JsDate,
        expiry b = JsIsoText x ->
        check' monitor heartbeat w
        = (Throw (TypeError "expiryDate.getTime is not a function"), w)).
Proof.
  intros Hs Hd Hb Hr.
  pose proof (checkExpiry_throttled Date_parse parseWhoIsData URL_host whois_lookup
                d w b Hb Hr) as He.
  split; [exact He|].
  intros x Hx. rewrite <- Hd in He.
  rewrite (check_after_checkExpiry monitor heartbeat w w info _ Hs He).
  rewrite Hx. reflexivity.
Qed.

End AdapterFacts.

(** ** The theorems at concrete inputs *)

(** A failed check: the row of [example.com] was never stamped, the registry
    cannot be reached. *)
Lemma failed_check_effect_witness :
  exists w' b',
    checkExpiry Date_parse_iso sample_parseWhoIsData sample_URL_host registry_down
                (Some "example.com") (unchecked_world 1903824000000)
    = (Return JsUndefined, w')
    /\ domain_expiry w' !! "example.com" = Some b'
    /\ expiry b' <> JsNull
    /\ lastCheck b' = JsIsoText (DateAt 1735862400000)
    /\ whois_info b' = None
    /\ lastExpiryNotificationSent b' = JsNumber 7
    /\ domain b' = "example.com".
Proof.
  apply (failed_check_effect Date_parse_iso sample_parseWhoIsData sample_URL_host
           registry_down "example.com" (unchecked_world 1903824000000)
           (looked_up (unchecked_world 1903824000000))
           (unchecked_row 1903824000000) (mkResult JsNull None));
    reflexivity.
Defined.

(** The renewal of the specification: the expiry 2025-01-10 with the
    recorded threshold 7, then a check that yields 2026-01-10. *)
Lemma renewal_resets_suppression_witness :
  exists w' b',
    checkExpiry Date_parse_iso sample_parseWhoIsData sample_URL_host registry_renewed
                (Some "example.com") (unchecked_world 1736467200000)
    = (Return (JsDateObj (DateAt 1768003200000)), w')
    /\ domain_expiry w' !! "example.com" = Some b'
    /\ expiry b' = JsIsoText (DateAt 1768003200000)
    /\ lastExpiryNotificationSent b' = JsNull.
Proof.
  destruct (renewal_resets_suppression Date_parse_iso sample_parseWhoIsData
              sample_URL_host registry_renewed "example.com"
              (unchecked_world 1736467200000)
              (looked_up (unchecked_world 1736467200000))
              (unchecked_row 1736467200000)
              (mkResult (JsDateObj (DateAt 1768003200000))
                        (Some {[ "Registry Expiry Date" := "2026-01-10T00:00:00Z" ]}))
              1736467200000 1768003200000
              eq_refl eq_refl eq_refl eq_refl eq_refl)
    as (w' & b' & Hrun & Hrow & Hexp & Hlater & _).
  exists w', b'. repeat split; try assumption. apply Hlater. reflexivity.
Defined.

(** The unreachable registry: the check returns [undefined]. *)
Lemma soft_failure_propagation_witness :
  fst (checkExpiry Date_parse_iso sample_parseWhoIsData sample_URL_host registry_down
                   (Some "example.com") (unchecked_world 1903824000000))
  = Return JsUndefined.
Proof.
  apply (proj2 (proj2 (soft_failure_propagation Date_parse_iso sample_parseWhoIsData
                         sample_URL_host registry_down))
           "example.com" (unchecked_world 1903824000000)
           (looked_up (unchecked_world 1903824000000))
           (unchecked_row 1903824000000) (mkResult JsNull None));
    reflexivity.
Defined.

(** The tie-break of the specification: five days remain, the thresholds
    are 7, 14 and 21, nothing was sent before.  The notification of the
    threshold 7 is the one that is sent. *)
Lemma one_notification_smallest_first_witness :
  let run := sendNotifications always_delivers (Some "example.com") [mail] five_days_world in
  (StronglySorted Z.le [7; 14; 21]%Z
   /\ Permutation [7; 14; 21]%Z [7; 14; 21]%Z
   /\ engine_outcome (mkBean "example.com"
                             (JsIsoText (DateAt (1735862400000 + 5 * 86400000 + 3600000)))
                             (JsIsoText (DateAt 1735862400000)) JsNull None)
                     (Some 5%Z) JsNull [mail] [7; 14; 21]%Z five_days_world run)
  /\ fst run = Return (JsNumber 7)
  /\ map deadline (outbox (snd run)) = [7%Z]
  /\ (lastExpiryNotificationSent <$> domain_expiry (snd run) !! "example.com")
     = Some (JsNumber 7).
Proof.
  split.
  - exact (one_notification_smallest_first always_delivers "example.com" five_days_world
             (mkBean "example.com"
                     (JsIsoText (DateAt (1735862400000 + 5 * 86400000 + 3600000)))
                     (JsIsoText (DateAt 1735862400000)) JsNull None)
             (1735862400000 + 5 * 86400000 + 3600000) [mail]
             eq_refl eq_refl ltac:(discriminate)).
  - vm_compute. repeat split; reflexivity.
Defined.

(** The end to end case of the specification: the registry answers
    [Registry Expiry Date: 2030-05-01T00:00:00Z] on 2030-04-20. *)
Lemma adapter_failure_semantics_witness :
  fst (check Date_parse_iso sample_parseWhoIsData sample_URL_host registry_2030
             (fun _ => example_com_result) sample_types
             (http_monitor "https://www.example.com/") (mkHeartbeat PENDING "")
             empty_world)
  = Return (mkHeartbeat UP "example.com expires in 11 days (2030-05-01T00:00:00.000Z)")
  /\ contains "example.com expires in 11 days (2030-05-01T00:00:00.000Z)" "11 days".
Proof.
  refine (proj2 (proj1 (adapter_failure_semantics Date_parse_iso sample_parseWhoIsData
                          sample_URL_host registry_2030 (fun _ => example_com_result)
                          sample_types (http_monitor "https://www.example.com/")
                          (mkHeartbeat PENDING "") empty_world
                          (mkSupport (Some "example.com") "com") eq_refl)
                   "example.com" (createByName "example.com") (looked_up empty_world)
                   (mkResult (JsDateObj (DateAt 1903824000000))
                             (Some {[ "Registry Expiry Date" := "2030-05-01T00:00:00Z" ]}))
                   1903824000000%Z eq_refl eq_refl eq_refl eq_refl eq_refl eq_refl) _).
  vm_compute. discriminate.
Defined.

(** The row checked two days ago: the check of the monitor ends with a
    [TypeError]. *)
Lemma cache_hit_returns_stored_text_witness :
  check Date_parse_iso sample_parseWhoIsData sample_URL_host registry_2030
        (fun _ => example_com_result) sample_types
        (http_monitor "https://www.example.com/") (mkHeartbeat PENDING "")
        (stale_world 172800000)
  = (Throw (TypeError "expiryDate.getTime is not a function"), stale_world 172800000).
Proof.
  apply (proj2 (cache_hit_returns_stored_text Date_parse_iso sample_parseWhoIsData
                  sample_URL_host registry_2030 (fun _ => example_com_result)
                  sample_types (http_monitor "https://www.example.com/")
                  (mkHeartbeat PENDING "") (stale_world 172800000)
                  (mkSupport (Some "example.com") "com") "example.com"
                  (mkBean "example.com" (JsIsoText (DateAt 1903824000000))
                          (JsIsoText (DateAt (1735862400000 - 172800000))) JsNull None)
                  eq_refl eq_refl eq_refl eq_refl)
           (DateAt 1903824000000)).
  reflexivity.
Defined.

(** The other end to end case of the specification: the registry answers
    with the expiry 2020-01-01 on 2030-04-20, and the check fails. *)
Example expired_domain_check_fails :
  check Date_parse_iso sample_parseWhoIsData sample_URL_host registry_2020
        (fun _ => example_com_result) sample_types
        (http_monitor "https://www.example.com/") (mkHeartbeat PENDING "")
        empty_world
  = (Throw (Error "Domain example.com expired 3762 days ago"),
     stored_world (looked_up empty_world) (createByName "example.com")
       (mkResult (JsDateObj (DateAt 1577836800000))
                 (Some {[ "Registry Expiry Date" := "2020-01-01" ]}))).
Proof. vm_compute. reflexivity. Qed.

(** * Further properties of the code *)

(** ** The record store *)

Section RecordStoreMore.

Variable Date_parse : string -> JsDate.
Variable parseWhoIsData : string -> list WhoisParam.
Variable URL_host : string -> option string.
Variable whois_lookup : nat -> string -> option string.

Local Abbreviation checkExpiry' :=
  (checkExpiry Date_parse parseWhoIsData URL_host whois_lookup).
Local Abbreviation getExpiryDate' :=
  (getExpiryDate Date_parse parseWhoIsData URL_host whois_lookup).

(** A lookup whose promise is rejected leaves the world as it was. *)
Lemma getExpiryDate_rejected (b : Bean) (w w1 : World) (e : JsError) :
  getExpiryDate' b w = (Throw e, w1) ->
  w1 = w /\ e = TypeError "Invalid URL".
Proof.
  unfold getExpiryDate, getWhoisDomainExpiryDate, normalizeDomain, whois_query.
  run_async.
  destruct (String.eqb (domain b) ""); [discriminate|].
  destruct (URL_host (domain b)); [discriminate|].
  destruct (URL_host _); [discriminate|]. intros [= <- <-]. auto.
Qed.

(** The branch of the lookup, when the promise is rejected. *)
Lemma checkExpiry_rejected (d : string) (w w1 : World) (b : Bean) (e : JsError) :
  bean_for w d = Some b ->
  checked_recently (clock w) b = false ->
  getExpiryDate' b w = (Throw e, w1) ->
  checkExpiry' (Some d) w = (Throw e, w1).
Proof.
  intros Hb Hr Hq. unfold checkExpiry.
  rewrite (bind_Return _ _ w w (Some b))
    by (rewrite findByDomainNameOrCreate_Some; now rewrite Hb).
  run_async. now rewrite Hr, Hq.
Qed.

(** With no bean, there is nothing to check. *)
Lemma checkExpiry_no_bean (d : string) (w : World) :
  bean_for w d = None ->
  checkExpiry' (Some d) w = (Return JsUndefined, w).
Proof.
  intros Hb. unfold checkExpiry.
  rewrite (bind_Return _ _ w w None)
    by (rewrite findByDomainNameOrCreate_Some; now rewrite Hb).
  reflexivity.
Qed.

(** X1.  Without a domain name there is nothing to look up: for the name
    [null], and for the empty name when no row has it, [checkExpiry] returns
    [undefined], issues no lookup and stores nothing. *)
Theorem checkExpiry_without_name (w : World) :
  checkExpiry' None w = (Return JsUndefined, w)
  /\ (domain_expiry w !! "" = None ->
      checkExpiry' (Some "") w = (Return JsUndefined, w)).
Proof.
  split; [reflexivity|].
  intros H. apply checkExpiry_no_bean. unfold bean_for. now rewrite H.
Qed.

(** X2.  When the domain of the bean cannot be read as a URL, neither as it
    is nor behind [http://], [checkExpiry] is rejected with the error of the
    URL constructor before any lookup: nothing is stored, the row is not
    stamped, and the log of lookups is as it was. *)
Theorem checkExpiry_invalid_url_stores_nothing (d : string) (w : World) (b : Bean) :
  bean_for w d = Some b ->
  checked_recently (clock w) b = false ->
  domain b <> "" ->
  URL_host (domain b) = None ->
  URL_host ("http://" +:+ domain b) = None ->
  checkExpiry' (Some d) w = (Throw (TypeError "Invalid URL"), w).
Proof.
  intros Hb Hr Hne H1 H2.
  apply (checkExpiry_rejected d w w b _ Hb Hr).
  unfold getExpiryDate, getWhoisDomainExpiryDate, normalizeDomain.
  apply String.eqb_neq in Hne. rewrite Hne, H1, H2. reflexivity.
Qed.

(** X3.  What a call of [checkExpiry] can change.  The clock, the settings
    and the outbox are untouched; the log of lookups is as it was or one
    entry longer; and the only row that can be written is the row of the
    bean. *)
Theorem checkExpiry_frame (d : string) (w : World) :
  let w' := snd (checkExpiry' (Some d) w) in
  clock w' = clock w
  /\ domainExpiryNotifyDays w' = domainExpiryNotifyDays w
  /\ outbox w' = outbox w
  /\ (lookups w' = lookups w \/ exists q, lookups w' = (lookups w ++ [q])%list)
  /\ (bean_for w d = None -> domain_expiry w' = domain_expiry w)
  /\ (forall b k, bean_for w d = Some b -> k <> domain b ->
        domain_expiry w' !! k = domain_expiry w !! k).
Proof.
  destruct (bean_for w d) as [b|] eqn:Hb.
  - destruct (checked_recently (clock w) b) eqn:Hr.
    + rewrite (checkExpiry_throttled _ _ _ _ d w b Hb Hr). simpl.
      repeat split; auto.
    + destruct (getExpiryDate' b w) as [[result|e] w1] eqn:Hq.
      * rewrite (checkExpiry_queried _ _ _ _ d w w1 b result Hb Hr Hq).
        destruct (getExpiryDate_world _ _ _ _ b w w1 result Hq) as [q ->].
        cbn [snd stored_world clock domainExpiryNotifyDays outbox lookups domain_expiry].
        repeat split; eauto; try discriminate.
        intros b' k [= <-] Hk. now rewrite lookup_insert_ne.
      * rewrite (checkExpiry_rejected d w w1 b e Hb Hr Hq).
        destruct (getExpiryDate_rejected b w w1 e Hq) as [-> _]. simpl.
        repeat split; auto.
  - rewrite (checkExpiry_no_bean d w Hb). simpl. repeat split; auto; discriminate.
Qed.

(** The row a cycle stores is found recent at every later time. *)
Lemma cached_after_lookup
    (d : string) (w w1 : World) (b : Bean) (result : ExpiryResult) (dt : N) :
  bean_for w d = Some b ->
  domain b = d ->
  getExpiryDate' b w = (Return result, w1) ->
  checkExpiry' (Some d) (tick dt (stored_world w1 b result))
  = (Return (isoDateTimeMillis (clock w) (expiryDate result)),
     tick dt (stored_world w1 b result)).
Proof.
  intros Hb Hd Hq.
  pose proof (getExpiryDate_frame _ _ _ _ b w w1 result Hq) as Hc.
  set (b' := mkBean (domain b) (isoDateTimeMillis (clock w) (expiryDate result))
                    (JsIsoText (DateAt (clock w)))
                    (if isAfter (dayjs_utc (clock w) (expiryDate result))
                                (dayjs_utc (clock w) (expiry b))
                     then JsNull else lastExpiryNotificationSent b)
                    (whoisInfo result)).
  assert (Hrow : bean_for (tick dt (stored_world w1 b result)) d = Some b').
  { unfold bean_for, tick, stored_world. cbn [domain_expiry].
    rewrite Hd, lookup_insert_eq, Hc. subst b'. now rewrite Hd. }
  rewrite (checkExpiry_throttled _ _ _ _ d _ b' Hrow); [reflexivity|].
  apply (checked_recently_past _ (clock w)); [reflexivity|].
  unfold tick, stored_world. cbn [clock]. rewrite Hc. lia.
Qed.

(** X4.  Once a cycle has looked the domain up, every later call of
    [checkExpiry] for it, whatever time has passed, answers with the stored
    expiry and issues no lookup: the world it leaves is the world it found. *)
Theorem checkExpiry_after_lookup_is_cached
    (d : string) (w w1 : World) (b : Bean) (result : ExpiryResult) (dt : N) :
  bean_for w d = Some b ->
  domain b = d ->
  checked_recently (clock w) b = false ->
  getExpiryDate' b w = (Return result, w1) ->
  let w' := tick dt (snd (checkExpiry' (Some d) w)) in
  checkExpiry' (Some d) w'
  = (Return (isoDateTimeMillis (clock w) (expiryDate result)), w').
Proof.
  intros Hb Hd Hr Hq w'. subst w'.
  rewrite (checkExpiry_queried _ _ _ _ d w w1 b result Hb Hr Hq). cbn [snd].
  exact (cached_after_lookup d w w1 b result dt Hb Hd Hq).
Qed.

(** X5.  The first check of a domain that has no row creates the row under
    the name of the domain and changes no other row: the table gains the one
    key.  The row holds the rendering of the extracted date, the stamp of the
    current time and the registry info of the cycle, and no threshold is
    recorded in it. *)
Theorem first_check_creates_row (d : string) (w w1 : World) (result : ExpiryResult) :
  domain_expiry w !! d = None ->
  d <> "" ->
  getExpiryDate' (createByName d) w = (Return result, w1) ->
  exists b',
    domain_expiry (snd (checkExpiry' (Some d) w)) = <[d := b']> (domain_expiry w)
    /\ dom (domain_expiry (snd (checkExpiry' (Some d) w))) = {[d]} ∪ dom (domain_expiry w)
    /\ domain b' = d
    /\ expiry b' = isoDateTimeMillis (clock w) (expiryDate result)
    /\ lastCheck b' = JsIsoText (DateAt (clock w))
    /\ whois_info b' = whoisInfo result
    /\ (lastExpiryNotificationSent b' = JsNull
        \/ lastExpiryNotificationSent b' = JsUndefined).
Proof.
  intros Hnone Hne Hq.
  assert (Hb : bean_for w d = Some (createByName d)).
  { unfold bean_for. rewrite Hnone. apply String.eqb_neq in Hne. now rewrite Hne. }
  rewrite (checkExpiry_queried _ _ _ _ d w w1 (createByName d) result Hb eq_refl Hq).
  destruct (getExpiryDate_world _ _ _ _ _ w w1 result Hq) as [q ->].
  cbn [snd stored_world clock domain_expiry createByName domain expiry
       lastExpiryNotificationSent dayjs_utc].
  eexists. split; [reflexivity|]. split; [apply dom_insert_L|].
  cbn [domain expiry lastCheck whois_info lastExpiryNotificationSent].
  repeat split.
  destruct (isAfter _ _); auto.
Qed.

End RecordStoreMore.

(** ** The days remaining *)

(** X6.  The getter [daysRemaining] counts whole periods of 24 hours and
    drops the rest, towards zero: it is negative only once the expiry lies a
    full day or more in the past, zero while the expiry is less than a day
    away on either side, and positive from a full day ahead on. *)
Theorem daysRemaining_truncates (t e : Z) (b : Bean) :
  expiry b = JsIsoText (DateAt e) ->
  exists n,
    daysRemaining t b = Some n
    /\ ((n < 0)%Z <-> (e - t <= - MILLISECONDS_A_DAY)%Z)
    /\ (n = 0%Z <-> (- MILLISECONDS_A_DAY < e - t < MILLISECONDS_A_DAY)%Z)
    /\ ((0 < n)%Z <-> (MILLISECONDS_A_DAY <= e - t)%Z).
Proof.
  intros He. unfold daysRemaining. rewrite He. cbn [dayjs_utc diff_day].
  eexists. split; [reflexivity|].
  unfold MILLISECONDS_A_DAY.
  pose proof (Z.quot_rem' (e - t) 86400000) as Hqr.
  assert (Hrem : (Z.abs (Z.rem (e - t) 86400000) < 86400000)%Z)
    by (pose proof (Z.rem_bound_abs (e - t) 86400000); lia).
  pose proof (Z.rem_sign_nz (e - t) 86400000) as Hsign.
  assert (Hs : (0 <= e - t -> 0 <= Z.rem (e - t) 86400000)%Z)
    by (intros; apply Z.rem_nonneg; lia).
  assert (Hs' : (e - t <= 0 -> Z.rem (e - t) 86400000 <= 0)%Z)
    by (intros; apply Z.rem_nonpos; lia).
  set (q := Z.quot (e - t) 86400000) in *.
  set (r := Z.rem (e - t) 86400000) in *.
  clearbody q r. lia.
Qed.

(** ** The adapter *)

Section AdapterMore.

Variable Date_parse : string -> JsDate.
Variable parseWhoIsData : string -> list WhoisParam.
Variable URL_host : string -> option string.
Variable whois_lookup : nat -> string -> option string.
Variable parseTld : string -> IResult.
Variable TYPES_WITH_DOMAIN_EXPIRY_SUPPORT_VIA_FIELD : gmap string string.

Local Abbreviation checkSupport' :=
  (checkSupport parseTld TYPES_WITH_DOMAIN_EXPIRY_SUPPORT_VIA_FIELD).
Local Abbreviation checkExpiry' :=
  (checkExpiry Date_parse parseWhoIsData URL_host whois_lookup).
Local Abbreviation getExpiryDate' :=
  (getExpiryDate Date_parse parseWhoIsData URL_host whois_lookup).
Local Abbreviation check' :=
  (check Date_parse parseWhoIsData URL_host whois_lookup parseTld
         TYPES_WITH_DOMAIN_EXPIRY_SUPPORT_VIA_FIELD).

(** [checkSupport] answers the same in every world. *)
Lemma checkSupport_any_world (monitor : Monitor) (w w' : World) :
  fst (checkSupport' monitor w) = fst (checkSupport' monitor w').
Proof.
  unfold checkSupport.
  destruct (_ !! type monitor) as [f|]; [|reflexivity].
  destruct (props monitor !! f) as [[|c target]|]; try reflexivity.
  destruct (isIp (parseTld (String c target))) as [[|]|];
    destruct (publicSuffix (parseTld (String c target))) as [ps|]; try reflexivity;
    destruct (String.length ps <? 2)%nat; reflexivity.
Qed.

(** The check of a cycle that looks the domain up and extracts a valid
    date. *)
Lemma check_queried (monitor : Monitor) (heartbeat : Heartbeat) (w w1 : World)
    (info : SupportInfo) (d : string) (b : Bean) (result : ExpiryResult) (ms : Z) :
  checkSupport' monitor w = (Return info, w) ->
  support_domain info = Some d ->
  bean_for w d = Some b ->
  domain b = d ->
  checked_recently (clock w) b = false ->
  getExpiryDate' b w = (Return result, w1) ->
  expiryDate result = JsDateObj (DateAt ms) ->
  check' monitor heartbeat w
  = (if (Z.quot (ms - clock w) MILLISECONDS_A_DAY <? 0)%Z
     then Throw (Error (expired_message (Some d)
                          (Z.quot (ms - clock w) MILLISECONDS_A_DAY)))
     else Return (mkHeartbeat UP
                    (up_message (Some d)
                       (Some (Z.quot (ms - clock w) MILLISECONDS_A_DAY)) ms)),
     stored_world w1 b result).
Proof.
  intros Hs Hd Hb Hdom Hr Hq Hdate.
  pose proof (checkExpiry_queried _ _ _ _ d w w1 b result Hb Hr Hq) as He.
  rewrite Hdate in He. rewrite <- Hd in He.
  pose proof (getExpiryDate_frame _ _ _ _ b w w1 result Hq) as Hc.
  rewrite (check_after_checkExpiry _ _ _ _ _ _ monitor heartbeat w _ info _ Hs He).
  rewrite Hd. unfold usable_date. cbn [truthy negb].
  unfold mbind at 1, Async_bind at 1, mret at 1, Async_ret at 1.
  rewrite (bind_Return _ _ _ _ _ (findByDomainNameOrCreate_Some d _)).
  unfold bean_for, stored_world. cbn [domain_expiry].
  rewrite Hdom, lookup_insert_eq, Hdate, Hc.
  unfold mbind, Async_bind, now, daysRemaining.
  cbn [clock expiry isoDateTimeMillis dayjs_utc diff_day].
  now destruct (Z.quot (ms - clock w) MILLISECONDS_A_DAY <? 0)%Z.
Qed.

(** X7.  A domain that expired less than 24 hours ago is not yet reported
    as expired: the days remaining are truncated to 0, and the check sets
    the heartbeat to UP with the message of a domain that expires in 0
    days. *)
Theorem check_expired_today_is_up (monitor : Monitor) (heartbeat : Heartbeat)
    (w w1 : World) (info : SupportInfo) (d : string) (b : Bean)
    (result : ExpiryResult) (ms : Z) :
  checkSupport' monitor w = (Return info, w) ->
  support_domain info = Some d ->
  bean_for w d = Some b ->
  domain b = d ->
  checked_recently (clock w) b = false ->
  getExpiryDate' b w = (Return result, w1) ->
  expiryDate result = JsDateObj (DateAt ms) ->
  (clock w - MILLISECONDS_A_DAY < ms < clock w)%Z ->
  fst (check' monitor heartbeat w)
  = Return (mkHeartbeat UP (up_message (Some d) (Some 0%Z) ms)).
Proof.
  intros Hs Hd Hb Hdom Hr Hq Hdate Hms.
  rewrite (check_queried monitor heartbeat w w1 info d b result ms
             Hs Hd Hb Hdom Hr Hq Hdate).
  assert (Hz : Z.quot (ms - clock w) MILLISECONDS_A_DAY = 0%Z).
  { replace (ms - clock w)%Z with (- (clock w - ms))%Z by lia.
    rewrite Z.quot_opp_l by (unfold MILLISECONDS_A_DAY; lia).
    rewrite Z.quot_small; [reflexivity|]. unfold MILLISECONDS_A_DAY in *. lia. }
  rewrite Hz. reflexivity.
Qed.

(** X8.  When [checkSupport] fails, the check fails with the same error
    before anything else is done: no lookup is issued and nothing is
    stored. *)
Theorem check_unsupported_touches_nothing (monitor : Monitor) (heartbeat : Heartbeat)
    (w : World) (e : JsError) :
  fst (checkSupport' monitor w) = Throw e ->
  check' monitor heartbeat w = (Throw e, w).
Proof.
  intros H. unfold check. apply bind_Throw.
  rewrite (surjective_pairing (checkSupport' monitor w)), H.
  now rewrite checkSupport_world.
Qed.

(** X9.  When the target has a public suffix and no registrable domain,
    [checkSupport] succeeds with the domain [null]; the check then finds no
    bean, asks no registry, stores nothing, and fails with the message of a
    missing expiry date for the domain [null]. *)
Theorem check_without_registrable_domain (monitor : Monitor) (heartbeat : Heartbeat)
    (w : World) (info : SupportInfo) :
  checkSupport' monitor w = (Return info, w) ->
  support_domain info = None ->
  check' monitor heartbeat w
  = (Throw (Error "No registry expiry date was found for domain null"), w).
Proof.
  intros Hs Hd.
  assert (He : checkExpiry' (support_domain info) w = (Return JsUndefined, w))
    by (rewrite Hd; reflexivity).
  rewrite (check_after_checkExpiry _ _ _ _ _ _ monitor heartbeat w w info _ Hs He).
  rewrite Hd. reflexivity.
Qed.

(** X10.  After a check that looked the domain up and extracted a valid
    date, every later check of the same monitor, whatever time has passed,
    finds the stored text on the throttled branch and ends with the
    [TypeError] of [getTime]; it issues no lookup and changes nothing. *)
Theorem check_again_is_type_error (monitor : Monitor) (heartbeat heartbeat' : Heartbeat)
    (w w1 : World) (info : SupportInfo) (d : string) (b : Bean)
    (result : ExpiryResult) (ms : Z) (dt : N) :
  checkSupport' monitor w = (Return info, w) ->
  support_domain info = Some d ->
  bean_for w d = Some b ->
  domain b = d ->
  checked_recently (clock w) b = false ->
  getExpiryDate' b w = (Return result, w1) ->
  expiryDate result = JsDateObj (DateAt ms) ->
  let w' := tick dt (snd (check' monitor heartbeat w)) in
  check' monitor heartbeat' w'
  = (Throw (TypeError "expiryDate.getTime is not a function"), w').
Proof.
  intros Hs Hd Hb Hdom Hr Hq Hdate w'. subst w'.
  rewrite (check_queried monitor heartbeat w w1 info d b result ms
             Hs Hd Hb Hdom Hr Hq Hdate). cbn [snd].
  set (w2 := tick dt (stored_world w1 b result)).
  assert (Hs2 : checkSupport' monitor w2 = (Return info, w2)).
  { rewrite (surjective_pairing (checkSupport' monitor w2)).
    rewrite checkSupport_world, (checkSupport_any_world monitor w2 w), Hs.
    reflexivity. }
  pose proof (cached_after_lookup _ _ _ _ d w w1 b result dt Hb Hdom Hq) as He.
  fold w2 in He. rewrite Hdate in He. rewrite <- Hd in He.
  rewrite (check_after_checkExpiry _ _ _ _ _ _ monitor heartbeat' w2 w2 info _ Hs2 He).
  reflexivity.
Qed.

End AdapterMore.

(** ** The result of [checkSupport] *)

Lemma split_dot_from_not_nil (cur s : string) : split_dot_from cur s <> [].
Proof.
  revert cur. induction s as [|c s IH]; intros cur; simpl; [discriminate|].
  destruct (Ascii.eqb c "."); [discriminate|apply IH].
Qed.

Lemma pop_cons (x : string) (l : list string) : l <> [] -> pop (x :: l) = pop l.
Proof. destruct l; [contradiction|reflexivity]. Qed.

Lemma has_dot_snoc (a : string) (c : ascii) :
  has_dot a = false -> Ascii.eqb c "." = false ->
  has_dot (a +:+ String c EmptyString) = false.
Proof.
  intros Ha Hc. induction a as [|x a IH]; simpl in *; [now rewrite Hc|].
  apply orb_false_iff in Ha as [Hx Ha]. now rewrite Hx, IH.
Qed.

(** The last component of a split: it has no dot, and the text ends with
    it, after nothing or after a dot. *)
Lemma split_dot_from_last (s cur : string) :
  has_dot cur = false ->
  exists pre,
    cur +:+ s = pre +:+ pop (split_dot_from cur s)
    /\ has_dot (pop (split_dot_from cur s)) = false
    /\ (pre = "" \/ exists pre', pre = pre' +:+ ".").
Proof.
  revert cur. induction s as [|c s IH]; intros cur Hcur.
  - exists "". simpl. rewrite append_empty_r. auto.
  - simpl. destruct (Ascii.eqb_spec c ".") as [->|Hc].
    + rewrite pop_cons by apply split_dot_from_not_nil.
      destruct (IH "" eq_refl) as (pre & Heq & Hdot & Hpre).
      change ("" +:+ s) with s in Heq.
      exists (cur +:+ "." +:+ pre). split; [|split; [exact Hdot|]].
      * rewrite !append_assoc. change ("." +:+ pre +:+ pop (split_dot_from "" s))
          with (String "." (pre +:+ pop (split_dot_from "" s))).
        now rewrite <- Heq.
      * right. destruct Hpre as [->|(pre' & ->)].
        -- exists cur. reflexivity.
        -- exists (cur +:+ "." +:+ pre'). now rewrite !append_assoc.
    + apply Ascii.eqb_neq in Hc.
      destruct (IH (cur +:+ String c EmptyString) (has_dot_snoc cur c Hcur Hc))
        as (pre & Heq & Hdot & Hpre).
      exists pre. rewrite append_assoc in Heq. auto.
Qed.

(** X11.  What a success of [checkSupport] tells: the monitor has a target
    that is a string and is not empty, the target is not an IP address, its
    public suffix has at least two characters, the domain returned is the one
    of the parser, and the [tld] returned is the last label of the public
    suffix: it has no dot in it and the public suffix ends with it, after
    nothing or after a dot.  The world is untouched. *)
Theorem checkSupport_success_shape
    (parseTld : string -> IResult)
    (TYPES_WITH_DOMAIN_EXPIRY_SUPPORT_VIA_FIELD : gmap string string)
    (monitor : Monitor) (w w' : World) (info : SupportInfo) :
  checkSupport parseTld TYPES_WITH_DOMAIN_EXPIRY_SUPPORT_VIA_FIELD monitor w
  = (Return info, w') ->
  exists target ps pre,
    has_target TYPES_WITH_DOMAIN_EXPIRY_SUPPORT_VIA_FIELD monitor target
    /\ isIp (parseTld target) <> Some true
    /\ publicSuffix (parseTld target) = Some ps
    /\ (2 <= String.length ps)%nat
    /\ support_domain info = tld_domain (parseTld target)
    /\ ps = pre +:+ support_tld info
    /\ has_dot (support_tld info) = false
    /\ (pre = "" \/ exists pre', pre = pre' +:+ ".")
    /\ w' = w.
Proof.
  unfold checkSupport.
  destruct (_ !! type monitor) as [f|] eqn:Hf; [|discriminate].
  destruct (props monitor !! f) as [[|c t]|] eqn:Hp; try discriminate.
  set (target := String c t).
  destruct (publicSuffix (parseTld target)) as [ps|] eqn:Hps;
    [|destruct (isIp (parseTld target)) as [[|]|]; discriminate].
  destruct (String.length ps <? 2)%nat eqn:Hlen;
    [destruct (isIp (parseTld target)) as [[|]|]; discriminate|].
  intros H.
  assert (Hip : isIp (parseTld target) <> Some true)
    by (intros E; rewrite E in H; discriminate).
  assert (Hinfo : info = mkSupport (tld_domain (parseTld target)) (pop (split_dot ps))
                  /\ w' = w).
  { destruct (isIp (parseTld target)) as [[|]|]; [contradiction| |];
      injection H as <- <-; auto. }
  destruct Hinfo as [-> ->].
  destruct (split_dot_from_last ps "" eq_refl) as (pre & Heq & Hdot & Hpre).
  exists target, ps, pre. cbn [support_domain support_tld].
  apply Nat.ltb_ge in Hlen.
  assert (Ht : has_target TYPES_WITH_DOMAIN_EXPIRY_SUPPORT_VIA_FIELD monitor target)
    by (exists f; split; [exact Hf|split; [exact Hp|discriminate]]).
  repeat split; auto.
Qed.

(** The monitor of [https://www.example.co.uk/path]: the domain is
    [example.co.uk] and the [tld] is [uk]. *)
Lemma checkSupport_success_shape_witness :
  exists target ps pre,
    has_target sample_types (http_monitor "https://www.example.co.uk/path") target
    /\ isIp example_co_uk_result <> Some true
    /\ publicSuffix example_co_uk_result = Some ps
    /\ (2 <= String.length ps)%nat
    /\ Some "example.co.uk" = tld_domain example_co_uk_result
    /\ ps = pre +:+ "uk"
    /\ has_dot "uk" = false
    /\ (pre = "" \/ exists pre', pre = pre' +:+ ".")
    /\ empty_world = empty_world.
Proof.
  exact (checkSupport_success_shape (fun _ => example_co_uk_result) sample_types
           (http_monitor "https://www.example.co.uk/path") empty_world empty_world
           (mkSupport (Some "example.co.uk") "uk") eq_refl).
Defined.

(** ** The sends of a cycle *)

Section EngineMore.

Variable Notification_send : nat -> Provider -> string -> bool.

(** The log of the loop over the providers, with the texts and the
    positions of the sends. *)
Lemma send_each_log (domainName : option string) (days : option Z) (targetDays : Z)
    (notificationList : list Provider) :
  forall (sent : bool) (w : World),
  exists block,
    send_each Notification_send domainName days targetDays sent notificationList w
    = (Return (sent || existsb delivered block),
       mkWorld (clock w) (domain_expiry w) (domainExpiryNotifyDays w) (lookups w)
               (outbox w ++ block))
    /\ map provider block = notificationList
    /\ Forall (fun a => deadline a = targetDays
                        /\ message a = notification_message domainName days) block
    /\ (forall i a, block !! i = Some a ->
          delivered a
          = Notification_send (length (outbox w) + i) (provider a) (message a)).
Proof.
  induction notificationList as [|p rest IH]; intros sent w.
  - exists []. simpl. unfold mret, Async_ret.
    rewrite orb_false_r, app_nil_r. split; [now destruct w|].
    split; [reflexivity|]. split; [constructor|]. intros i a Hi. discriminate.
  - simpl. run_async.
    match goal with |- context [mkAttempt ?t ?q ?m ?ok] => set (a := mkAttempt t q m ok) end.
    destruct (IH (sent || delivered a)
                (mkWorld (clock w) (domain_expiry w) (domainExpiryNotifyDays w)
                         (lookups w) (outbox w ++ [a])))
      as (block & Hrun & Hpr & Hall & Hpos).
    exists (a :: block). simpl. split; [|split; [|split]].
    + simpl in Hrun. subst a. simpl in *. rewrite Hrun.
      rewrite <- app_assoc, orb_assoc. reflexivity.
    + now rewrite Hpr.
    + constructor; [split; reflexivity|exact Hall].
    + intros [|i] a' Hi.
      * injection Hi as <-. subst a. cbn [delivered provider message].
        now rewrite Nat.add_0_r.
      * rewrite (Hpos i a' Hi). cbn [outbox]. rewrite length_app. simpl.
        f_equal. lia.
Qed.

(** X12.  [sendDomainNotificationByTargetDays] tries every provider of the
    list once, in the order of the list, whether the sends before failed or
    went through; every send carries the same text; and the call answers
    [true] exactly when a send went through.  It changes the outbox only. *)
Theorem send_tries_every_provider (domainName : option string) (days : option Z)
    (targetDays : Z) (notificationList : list Provider) (w : World) :
  exists block,
    sendDomainNotificationByTargetDays Notification_send domainName days targetDays
                                       notificationList w
    = (Return (existsb delivered block),
       mkWorld (clock w) (domain_expiry w) (domainExpiryNotifyDays w) (lookups w)
               (outbox w ++ block))
    /\ map provider block = notificationList
    /\ Forall (fun a => deadline a = targetDays
                        /\ message a = notification_message domainName days) block
    /\ (forall i a, block !! i = Some a ->
          delivered a
          = Notification_send (length (outbox w) + i) (provider a) (message a)).
Proof.
  exact (send_each_log domainName days targetDays notificationList false w).
Qed.

(** What the loop over the thresholds can change. *)
Lemma notify_loop_frame (domainName : option string) (b : Bean) (days : option Z)
    (lastSent : JsValue) (notificationList : list Provider) (l : list Z) :
  forall w : World,
    let w' := snd (notify_loop Notification_send domainName b days lastSent
                               notificationList l w) in
    clock w' = clock w
    /\ lookups w' = lookups w
    /\ domainExpiryNotifyDays w' = domainExpiryNotifyDays w
    /\ (forall k, k <> domain b -> domain_expiry w' !! k = domain_expiry w !! k)
    /\ exists new,
         outbox w' = (outbox w ++ new)%list
         /\ Forall (fun a => message a = notification_message domainName days
                             /\ In (provider a) notificationList
                             /\ In (deadline a) l) new.
Proof.
  induction l as [|t l IH]; intros w.
  - simpl. repeat split; auto. exists []. rewrite app_nil_r. auto.
  - assert (Hweak : forall w0 : World,
              let w' := snd (notify_loop Notification_send domainName b days lastSent
                                         notificationList l w0) in
              clock w' = clock w0
              /\ lookups w' = lookups w0
              /\ domainExpiryNotifyDays w' = domainExpiryNotifyDays w0
              /\ (forall k, k <> domain b ->
                    domain_expiry w' !! k = domain_expiry w0 !! k)
              /\ exists new,
                   outbox w' = (outbox w0 ++ new)%list
                   /\ Forall (fun a => message a = notification_message domainName days
                                       /\ In (provider a) notificationList
                                       /\ In (deadline a) (t :: l)) new).
    { intros w0. destruct (IH w0) as (H1 & H2 & H3 & H4 & new & H5 & H6).
      repeat split; auto. exists new. split; [exact H5|].
      eapply List.Forall_impl; [|exact H6]. intros a (Ha & Hb & Hc). simpl. auto. }
    simpl.
    destruct (not_due days t); [apply Hweak|].
    destruct (sent_already lastSent t); [apply Hweak|].
    unfold sendDomainNotificationByTargetDays.
    destruct (send_each_log domainName days t notificationList false w)
      as (block & Hrun & Hpr & Hall & _).
    cbn [orb] in Hrun. rewrite (bind_Return _ _ _ _ _ Hrun).
    assert (Hblock : Forall (fun a => message a = notification_message domainName days
                                      /\ In (provider a) notificationList
                                      /\ In (deadline a) (t :: l)) block).
    { apply List.Forall_forall. intros a Ha.
      rewrite List.Forall_forall in Hall. destruct (Hall a Ha) as [Hd Hm].
      split; [exact Hm|]. split; [|left; now rewrite Hd].
      rewrite <- Hpr. now apply in_map. }
    destruct (existsb delivered block); cbv beta iota.
    + run_async. simpl. repeat split; auto.
      * intros k Hk. now rewrite lookup_insert_ne.
      * exists block. auto.
    + destruct (Hweak (mkWorld (clock w) (domain_expiry w) (domainExpiryNotifyDays w)
                               (lookups w) (outbox w ++ block)))
        as (H1 & H2 & H3 & H4 & new & H5 & H6).
      cbn [clock lookups domainExpiryNotifyDays domain_expiry outbox] in *.
      repeat split; auto. exists (block ++ new)%list. split.
      * rewrite H5. now rewrite <- app_assoc.
      * apply Forall_app. auto.
Qed.

Lemma load_notifyDays_run (w : World) :
  load_notifyDays w = (Return (configured_days w), settled w).
Proof.
  unfold load_notifyDays, configured_days, settled.
  destruct w as [c t [l|] q o]; reflexivity.
Qed.

(** The call for a record with a valid expiry and a list of providers that
    is not empty: the loop over the sorted thresholds. *)
Lemma sendNotifications_valid (d : string) (w : World) (b : Bean) (e : Z)
    (notificationList : list Provider) :
  bean_for w d = Some b ->
  expiry b = JsIsoText (DateAt e) ->
  notificationList <> [] ->
  sendNotifications Notification_send (Some d) notificationList w
  = notify_loop Notification_send (Some d) b (daysRemaining (clock w) b)
                (lastExpiryNotificationSent b) notificationList
                (sort_asc (configured_days w)) (settled w).
Proof.
  intros Hb He Hne. unfold sendNotifications.
  rewrite (bind_Return _ _ w w (Some b))
    by (rewrite findByDomainNameOrCreate_Some; now rewrite Hb).
  destruct notificationList as [|p rest]; [contradiction|].
  rewrite He. cbn [truthy new_Date is_invalid negb orb].
  unfold mbind at 1, Async_bind at 1, now at 1.
  rewrite (bind_Return _ _ _ _ _ (load_notifyDays_run w)). reflexivity.
Qed.

(** X13.  [sendNotifications] has nothing to do, and does nothing, when the
    list of providers is empty, whatever the domain name; and when the row
    has no expiry or an expiry that is not a valid date.  It returns
    [undefined]: nothing is sent, no setting is written, no row is stored. *)
Theorem sendNotifications_nothing_to_do (domainName : option string) (w : World) :
  sendNotifications Notification_send domainName [] w = (Return JsUndefined, w)
  /\ (forall (d : string) (b : Bean) (notificationList : list Provider),
        bean_for w d = Some b ->
        truthy (expiry b) = false \/ new_Date (expiry b) = InvalidDate ->
        sendNotifications Notification_send (Some d) notificationList w
        = (Return JsUndefined, w)).
Proof.
  split.
  - unfold sendNotifications.
    destruct domainName as [d|].
    + now rewrite (bind_Return _ _ _ _ _ (findByDomainNameOrCreate_Some d w)).
    + reflexivity.
  - intros d b l Hb Hbad. unfold sendNotifications.
    rewrite (bind_Return _ _ w w (Some b))
      by (rewrite findByDomainNameOrCreate_Some; now rewrite Hb).
    destruct l as [|p rest]; [reflexivity|].
    destruct Hbad as [H|H]; rewrite H; [reflexivity|].
    now rewrite orb_true_r.
Qed.

(** X14.  What a cycle of [sendNotifications] can change, for a record with
    a valid expiry and a list of providers that is not empty.  The clock
    and the log of lookups are untouched: the engine asks no registry.  The
    setting of the thresholds is afterwards the list the cycle worked with,
    the default 7, 14, 21 when it was missing.  No row but the row of the
    bean is written.  Every send of the cycle goes to a provider of the
    list, for a configured threshold, with the text that names the domain
    and the days remaining. *)
Theorem sendNotifications_frame (d : string) (w : World) (b : Bean) (e : Z)
    (notificationList : list Provider) :
  bean_for w d = Some b ->
  expiry b = JsIsoText (DateAt e) ->
  notificationList <> [] ->
  let w' := snd (sendNotifications Notification_send (Some d) notificationList w) in
  clock w' = clock w
  /\ lookups w' = lookups w
  /\ domainExpiryNotifyDays w' = Some (configured_days w)
  /\ (forall k, k <> domain b -> domain_expiry w' !! k = domain_expiry w !! k)
  /\ exists new,
       outbox w' = (outbox w ++ new)%list
       /\ Forall (fun a =>
                    message a = notification_message (Some d) (daysRemaining (clock w) b)
                    /\ In (provider a) notificationList
                    /\ In (deadline a) (configured_days w)) new.
Proof.
  intros Hb He Hne w'. subst w'.
  rewrite (sendNotifications_valid d w b e notificationList Hb He Hne).
  destruct (notify_loop_frame (Some d) b (daysRemaining (clock w) b)
              (lastExpiryNotificationSent b) notificationList
              (sort_asc (configured_days w)) (settled w))
    as (H1 & H2 & H3 & H4 & new & H5 & H6).
  cbn [settled clock lookups domainExpiryNotifyDays domain_expiry outbox] in *.
  repeat split; auto. exists new. split; [exact H5|].
  eapply List.Forall_impl; [|exact H6]. intros a (Ha & Hp & Hd).
  repeat split; auto.
  eapply Permutation_in; [apply sort_asc_perm|exact Hd].
Qed.

(** X15.  The recorded threshold only descends.  For a record with a valid
    expiry whose recorded threshold is a number [n] other than 0, a cycle
    never throws; and when it fires, the threshold [t] it fires at is a
    configured one, is strictly below [n], is not below the days remaining,
    and is the threshold the row is stored with. *)
Theorem recorded_threshold_descends (d : string) (w : World) (b : Bean) (e n : Z)
    (notificationList : list Provider) :
  bean_for w d = Some b ->
  expiry b = JsIsoText (DateAt e) ->
  notificationList <> [] ->
  lastExpiryNotificationSent b = JsNumber n ->
  n <> 0%Z ->
  let run := sendNotifications Notification_send (Some d) notificationList w in
  fst run = Return JsUndefined
  \/ exists t,
       fst run = Return (JsNumber t)
       /\ In t (configured_days w)
       /\ (t < n)%Z
       /\ (Z.quot (e - clock w) MILLISECONDS_A_DAY <= t)%Z
       /\ domain_expiry (snd run) !! domain b = Some (with_lastSent b (JsNumber t)).
Proof.
  intros Hb He Hne Hn Hn0 run. subst run.
  rewrite (sendNotifications_valid d w b e notificationList Hb He Hne).
  destruct (notify_loop_outcome Notification_send (Some d) b (daysRemaining (clock w) b)
              (lastExpiryNotificationSent b) notificationList
              (sort_asc (configured_days w)) (settled w))
    as [(t & pre & post & before & block & Hr & Hl & Hd & _ & _ & _ & _ & _ & _ & Ht)
       |(tried & Hr & _)]; [right|left; exact Hr].
  exists t. split; [exact Hr|].
  split.
  { eapply Permutation_in; [apply sort_asc_perm|]. rewrite Hl.
    apply in_or_app. right. now left. }
  unfold due, skips, not_due, sent_already, daysRemaining in Hd.
  rewrite He, Hn in Hd. cbn [dayjs_utc diff_day num_gt truthy to_number num_le] in Hd.
  apply negb_true_iff, orb_false_iff in Hd as [Hdays Hsent].
  apply Z.eqb_neq in Hn0. rewrite Hn0 in Hsent. cbn [negb andb] in Hsent.
  apply Z.ltb_ge in Hdays. apply Z.leb_gt in Hsent.
  repeat split; [lia|exact Hdays|].
  rewrite Ht. cbn [settled domain_expiry]. apply lookup_insert_eq.
Qed.

End EngineMore.

(** ** More on the extractor *)

Lemma trim_start_spaces (n : nat) (s : string) :
  trim_start (spaces n +:+ s) = trim_start s.
Proof. induction n as [|n IH]; [reflexivity|exact IH]. Qed.

Lemma trim_end_spaces (n : nat) : trim_end (spaces n) = "".
Proof. induction n as [|n IH]; [reflexivity|]. simpl. now rewrite IH. Qed.

Lemma trim_end_app (a b : string) :
  trim_end b = "" -> trim_end (a +:+ b) = trim_end a.
Proof.
  intros Hb. induction a as [|c a IH]; [exact Hb|].
  change (String c a +:+ b) with (String c (a +:+ b)). simpl. now rewrite IH.
Qed.

Lemma trim_known_key (k : string) (n m : nat) :
  In k WHOIS_EXPIRY_KEYS -> trim (spaces n +:+ k +:+ spaces m) = k.
Proof.
  intros Hk. unfold trim. rewrite trim_start_spaces.
  assert (Hs : trim_start (k +:+ spaces m) = k +:+ spaces m)
    by (simpl in Hk; intuition (subst; reflexivity)).
  rewrite Hs, trim_end_app by apply trim_end_spaces.
  simpl in Hk. intuition (subst; reflexivity).
Qed.

Section ExtractorMore.

Variable Date_parse : string -> JsDate.
Variable parseWhoIsData : string -> list WhoisParam.

Lemma find_last_app_none {A : Type} (f : A -> bool) (l back : list A) :
  Forall (fun x => f x = false) back -> find_last f (l ++ back) = find_last f l.
Proof.
  induction back as [|z back IH] using rev_ind; intros H.
  - now rewrite app_nil_r.
  - apply Forall_app in H as [Hb Hz]. inversion Hz as [|? ? Hfz _]; subst.
    rewrite app_assoc, find_last_snoc, Hfz. auto.
Qed.

(** X16.  A known expiry key is recognised with spaces before and after
    it, as registries that indent their replies write it: when no pair
    after it in the parsed reply has a known key (the pair [End Text] that
    closes the list has none), the date is read from its value. *)
Theorem indented_key_is_recognised (data k v : string) (n m : nat)
    (front back : list WhoisParam) :
  In k WHOIS_EXPIRY_KEYS ->
  parseWhoIsData data
  = (front ++ mkParam (spaces n +:+ k +:+ spaces m) v :: back)%list ->
  Forall (fun p => is_expiry_key p = false) back ->
  expiryDate (lookup_callback Date_parse parseWhoIsData (Some data))
  = date_or_null (Date_parse v).
Proof.
  intros Hk Hdata Hback. cbn [lookup_callback].
  rewrite Hdata, resolve_scan_date, scan_date.
  change (front ++ mkParam (spaces n +:+ k +:+ spaces m) v :: back)%list
    with (front ++ [mkParam (spaces n +:+ k +:+ spaces m) v] ++ back)%list.
  rewrite app_assoc, (find_last_app_none _ _ _ Hback), find_last_snoc.
  unfold is_expiry_key at 1. cbn [attribute].
  rewrite (trim_known_key k n m Hk).
  replace (includes WHOIS_EXPIRY_KEYS k) with true; [reflexivity|].
  symmetry. unfold includes. apply existsb_exists. exists k.
  split; [exact Hk|apply String.eqb_refl].
Qed.

Lemma find_last_none {A : Type} (f : A -> bool) (l : list A) :
  Forall (fun x => f x = false) l -> find_last f l = None.
Proof.
  induction l as [|x l IH] using rev_ind; [reflexivity|].
  intros H. apply Forall_app in H as [Hl Hx]. inversion Hx as [|? ? Hfx _]; subst.
  rewrite find_last_snoc, Hfx. auto.
Qed.

Lemma find_last_some {A : Type} (f : A -> bool) (l : list A) (x : A) :
  In x l -> f x = true -> exists y, find_last f l = Some y.
Proof.
  induction l as [|z l IH] using rev_ind; [contradiction|].
  intros Hin Hfx. rewrite find_last_snoc.
  destruct (f z) eqn:Hfz; [eauto|].
  apply in_app_or in Hin as [Hin|[->|[]]]; [auto|congruence].
Qed.

(** X17.  A reply in which no attribute is a known expiry key gives no
    date, and its fields are kept all the same: [expiryDate] is [null], and
    every attribute of the reply other than [__proto__] is a key of
    [whoisInfo]. *)
Theorem unknown_fields_give_no_date (data : string) :
  Forall (fun p => is_expiry_key p = false) (parseWhoIsData data) ->
  expiryDate (lookup_callback Date_parse parseWhoIsData (Some data)) = JsNull
  /\ exists info,
       whoisInfo (lookup_callback Date_parse parseWhoIsData (Some data)) = Some info
       /\ forall p, In p (parseWhoIsData data) -> attribute p <> "__proto__" ->
            is_Some (info !! attribute p).
Proof.
  intros Hnone. cbn [lookup_callback]. split.
  - rewrite resolve_scan_date, scan_date, (find_last_none _ _ Hnone). reflexivity.
  - exists (snd (scan Date_parse (parseWhoIsData data))).
    split; [apply resolve_scan_info|].
    intros p Hin Hp. rewrite scan_info.
    apply String.eqb_neq in Hp. rewrite Hp.
    destruct (find_last_some (has_attribute (attribute p)) _ p Hin) as [y Hy];
      [apply String.eqb_refl|].
    rewrite Hy. eexists. reflexivity.
Qed.

End ExtractorMore.

(** ** The migration *)

Module AddDomainWhoisInfoFacts.
Import AddDomainWhoisInfo.




End AddDomainWhoisInfoFacts.

(** ** The cycle with a dispatcher that always, or never, delivers *)

Lemma find_sorted_least (f : Z -> bool) (l : list Z) (t : Z) :
  StronglySorted Z.le l ->
  List.find f l = Some t ->
  f t = true /\ In t l /\ forall t', In t' l -> f t' = true -> (t <= t')%Z.
Proof.
  induction 1 as [|x l Hs IH Hx]; simpl; [discriminate|].
  destruct (f x) eqn:Hfx.
  - intros [= <-]. split; [exact Hfx|]. split; [now left|].
    intros t' [<-|Hin] _; [lia|].
    rewrite List.Forall_forall in Hx. now apply Hx.
  - intros Hfind. destruct (IH Hfind) as (Hft & Hin & Hleast).
    split; [exact Hft|]. split; [now right|].
    intros t' [<-|Hin'] Hft'; [congruence|auto].
Qed.

Lemma filter_length_perm (f : Z -> bool) (l l' : list Z) :
  Permutation l l' -> length (List.filter f l) = length (List.filter f l').
Proof.
  induction 1 as [|x l l' _ IH|x y l|l l' l'' _ IH1 _ IH2]; simpl.
  - reflexivity.
  - destruct (f x); simpl; now rewrite IH.
  - destruct (f x), (f y); reflexivity.
  - now rewrite IH1.
Qed.

Section Dispatchers.

Variable Notification_send : nat -> Provider -> string -> bool.

(** The loop when every send goes through: it fires at the first due
    threshold of the list, with one send to each provider. *)
Lemma notify_loop_all_delivered (domainName : option string) (b : Bean)
    (days : option Z) (lastSent : JsValue) (notificationList : list Provider)
    (l : list Z) (w : World) :
  (forall n p m, Notification_send n p m = true) ->
  notificationList <> [] ->
  fst (notify_loop Notification_send domainName b days lastSent notificationList l w)
  = match List.find (due days lastSent) l with
    | Some t => Return (JsNumber t)
    | None => Return JsUndefined
    end
  /\ length (outbox (snd (notify_loop Notification_send domainName b days lastSent
                                      notificationList l w)))
     = (length (outbox w)
        + match List.find (due days lastSent) l with
          | Some _ => length notificationList
          | None => 0
          end)%nat.
Proof.
  intros Hall Hne. induction l as [|t l IH]; [simpl; auto|].
  simpl. unfold due, skips.
  destruct (not_due days t); [exact IH|].
  destruct (sent_already lastSent t); [exact IH|]. cbn [orb negb].
  unfold sendDomainNotificationByTargetDays.
  destruct (send_each_log Notification_send domainName days t notificationList false w)
    as (block & Hrun & Hpr & _ & Hpos).
  cbn [orb] in Hrun. rewrite (bind_Return _ _ _ _ _ Hrun).
  assert (Hsent : existsb delivered block = true).
  { destruct block as [|a block]; [destruct notificationList; [contradiction|discriminate]|].
    simpl. rewrite (Hpos 0%nat a eq_refl), Hall. reflexivity. }
  rewrite Hsent. run_async. cbn [fst snd outbox]. split; [reflexivity|].
  rewrite length_app. f_equal. rewrite <- Hpr. now rewrite length_map.
Qed.

(** The loop when every send fails: every due threshold is tried with
    every provider, nothing is recorded. *)
Lemma notify_loop_none_delivered (domainName : option string) (b : Bean)
    (days : option Z) (lastSent : JsValue) (notificationList : list Provider)
    (l : list Z) :
  (forall n p m, Notification_send n p m = false) ->
  forall w : World,
    let run := notify_loop Notification_send domainName b days lastSent
                           notificationList l w in
    fst run = Return JsUndefined
    /\ domain_expiry (snd run) = domain_expiry w
    /\ length (outbox (snd run))
       = (length (outbox w)
          + length notificationList * length (List.filter (due days lastSent) l))%nat.
Proof.
  intros Hall. induction l as [|t l IH]; intros w.
  - simpl. repeat split; auto. lia.
  - simpl. unfold due, skips.
    destruct (not_due days t); [exact (IH w)|].
    destruct (sent_already lastSent t); [exact (IH w)|]. cbn [orb negb].
    unfold sendDomainNotificationByTargetDays.
    destruct (send_each_log Notification_send domainName days t notificationList false w)
      as (block & Hrun & Hpr & _ & Hpos).
    cbn [orb] in Hrun. rewrite (bind_Return _ _ _ _ _ Hrun).
    assert (Hsent : existsb delivered block = false).
    { apply not_true_is_false. intros H. apply existsb_exists in H as (a & Hin & Ha).
      apply list_elem_of_In, list_elem_of_lookup in Hin as [i Hi].
      rewrite (Hpos i a Hi), Hall in Ha. discriminate. }
    rewrite Hsent. cbv beta iota.
    destruct (IH (mkWorld (clock w) (domain_expiry w) (domainExpiryNotifyDays w)
                          (lookups w) (outbox w ++ block)))
      as (H1 & H2 & H3).
    cbn [domain_expiry outbox] in *. repeat split; auto.
    rewrite H3, length_app. cbn [length].
    assert (length block = length notificationList)
      by (rewrite <- Hpr; now rewrite length_map).
    unfold due, skips in *. lia.
Qed.

(** X19.  [sendNotifications] does not guard against a missing bean: for
    the name [null], and for the empty name when no row has it, a call with a
    list of providers that is not empty ends with the [TypeError] of reading
    [expiry] of [null].  Nothing is sent and nothing is stored. *)
Theorem sendNotifications_without_bean (w : World) (notificationList : list Provider) :
  notificationList <> [] ->
  sendNotifications Notification_send None notificationList w
  = (Throw (TypeError "Cannot read properties of null (reading 'expiry')"), w)
  /\ (domain_expiry w !! "" = None ->
      sendNotifications Notification_send (Some "") notificationList w
      = (Throw (TypeError "Cannot read properties of null (reading 'expiry')"), w)).
Proof.
  intros Hne. destruct notificationList as [|p rest]; [contradiction|].
  split; [reflexivity|]. intros H. unfold sendNotifications.
  rewrite (bind_Return _ _ _ _ _ (findByDomainNameOrCreate_Some "" w)).
  unfold bean_for. rewrite H. reflexivity.
Qed.

(** X20.  When every send goes through, a cycle for a record with a valid
    expiry fires at the smallest configured threshold that is due, with one
    send to each provider and no other send; when no configured threshold is
    due, it returns [undefined] and sends nothing. *)
Theorem fires_at_smallest_due_threshold (d : string) (w : World) (b : Bean) (e : Z)
    (notificationList : list Provider) :
  (forall n p m, Notification_send n p m = true) ->
  bean_for w d = Some b ->
  expiry b = JsIsoText (DateAt e) ->
  notificationList <> [] ->
  let run := sendNotifications Notification_send (Some d) notificationList w in
  let is_due := due (daysRemaining (clock w) b) (lastExpiryNotificationSent b) in
  (Forall (fun t => is_due t = false) (configured_days w) ->
   fst run = Return JsUndefined /\ length (outbox (snd run)) = length (outbox w))
  /\ (forall t, In t (configured_days w) -> is_due t = true ->
       exists t0,
         fst run = Return (JsNumber t0)
         /\ In t0 (configured_days w) /\ is_due t0 = true
         /\ (forall t', In t' (configured_days w) -> is_due t' = true -> (t0 <= t')%Z)
         /\ length (outbox (snd run))
            = (length (outbox w) + length notificationList)%nat).
Proof.
  intros Hall Hb He Hne run is_due. subst run.
  rewrite (sendNotifications_valid Notification_send d w b e notificationList Hb He Hne).
  destruct (notify_loop_all_delivered (Some d) b (daysRemaining (clock w) b)
              (lastExpiryNotificationSent b) notificationList
              (sort_asc (configured_days w)) (settled w) Hall Hne) as [Hr Hlen].
  fold is_due in Hr, Hlen. cbn [settled outbox] in Hlen.
  destruct (List.find is_due (sort_asc (configured_days w))) as [t0|] eqn:Hfind.
  - destruct (find_sorted_least is_due _ t0 (sort_asc_sorted _) Hfind)
      as (Hdue & Hin & Hleast).
    split.
    + intros Hnone. exfalso. rewrite List.Forall_forall in Hnone.
      rewrite Hnone in Hdue; [discriminate|].
      eapply Permutation_in; [apply sort_asc_perm|exact Hin].
    + intros t Ht Htdue. exists t0. split; [exact Hr|].
      split; [eapply Permutation_in; [apply sort_asc_perm|exact Hin]|].
      split; [exact Hdue|]. split; [|exact Hlen].
      intros t' Ht' Hd'. apply Hleast; [|exact Hd'].
      eapply Permutation_in; [apply Permutation_sym, sort_asc_perm|exact Ht'].
  - split.
    + intros _. split; [exact Hr|]. rewrite Hlen. lia.
    + intros t Ht Htdue. exfalso.
      pose proof (List.find_none _ _ Hfind t) as Hn.
      rewrite Hn in Htdue; [discriminate|].
      eapply Permutation_in; [apply Permutation_sym, sort_asc_perm|exact Ht].
Qed.

(** X21.  When every send fails, a cycle for a record with a valid expiry
    tries every due configured threshold with every provider, records
    nothing and returns [undefined]: the table is as it was, and the
    thresholds stay due for the next cycle. *)
Theorem nothing_recorded_when_all_sends_fail (d : string) (w : World) (b : Bean) (e : Z)
    (notificationList : list Provider) :
  (forall n p m, Notification_send n p m = false) ->
  bean_for w d = Some b ->
  expiry b = JsIsoText (DateAt e) ->
  notificationList <> [] ->
  let run := sendNotifications Notification_send (Some d) notificationList w in
  let is_due := due (daysRemaining (clock w) b) (lastExpiryNotificationSent b) in
  fst run = Return JsUndefined
  /\ domain_expiry (snd run) = domain_expiry w
  /\ length (outbox (snd run))
     = (length (outbox w)
        + length notificationList * length (List.filter is_due (configured_days w)))%nat.
Proof.
  intros Hall Hb He Hne run is_due. subst run.
  rewrite (sendNotifications_valid Notification_send d w b e notificationList Hb He Hne).
  destruct (notify_loop_none_delivered (Some d) b (daysRemaining (clock w) b)
              (lastExpiryNotificationSent b) notificationList
              (sort_asc (configured_days w)) Hall (settled w)) as (H1 & H2 & H3).
  cbn [settled domain_expiry outbox] in *. fold is_due in H3.
  repeat split; auto. rewrite H3. f_equal. f_equal.
  apply filter_length_perm, sort_asc_perm.
Qed.

End Dispatchers.

(** ** The further properties at concrete inputs *)

(** The empty name in a world with no row. *)
Lemma checkExpiry_without_name_witness :
  checkExpiry Date_parse_iso sample_parseWhoIsData sample_URL_host registry_2030
              (Some "") empty_world
  = (Return JsUndefined, empty_world).
Proof.
  apply (proj2 (checkExpiry_without_name Date_parse_iso sample_parseWhoIsData
                  sample_URL_host registry_2030 empty_world)).
  reflexivity.
Defined.

(** The row of [example.com] with a URL parser that accepts nothing. *)
Lemma checkExpiry_invalid_url_stores_nothing_witness :
  checkExpiry Date_parse_iso sample_parseWhoIsData no_URL_host registry_2030
              (Some "example.com") (unchecked_world 1903824000000)
  = (Throw (TypeError "Invalid URL"), unchecked_world 1903824000000).
Proof.
  apply (checkExpiry_invalid_url_stores_nothing Date_parse_iso sample_parseWhoIsData
           no_URL_host registry_2030 "example.com" (unchecked_world 1903824000000)
           (unchecked_row 1903824000000));
    [reflexivity|reflexivity|discriminate|reflexivity|reflexivity].
Defined.

(** The check of [example.com] leaves the row of another domain alone. *)
Lemma checkExpiry_frame_witness :
  domain_expiry (snd (checkExpiry Date_parse_iso sample_parseWhoIsData sample_URL_host
                                  registry_2030 (Some "example.com")
                                  (unchecked_world 1903824000000)))
    !! "example.org"
  = domain_expiry (unchecked_world 1903824000000) !! "example.org".
Proof.
  apply (proj2 (proj2 (proj2 (proj2 (proj2
           (checkExpiry_frame Date_parse_iso sample_parseWhoIsData sample_URL_host
              registry_2030 "example.com" (unchecked_world 1903824000000))))))
           (unchecked_row 1903824000000) "example.org");
    [reflexivity|discriminate].
Defined.

(** Two days after the first check of [example.com]. *)
Lemma checkExpiry_after_lookup_is_cached_witness :
  let w' := tick 172800000
              (snd (checkExpiry Date_parse_iso sample_parseWhoIsData sample_URL_host
                                registry_2030 (Some "example.com") empty_world)) in
  checkExpiry Date_parse_iso sample_parseWhoIsData sample_URL_host registry_2030
              (Some "example.com") w'
  = (Return (JsIsoText (DateAt 1903824000000)), w').
Proof.
  exact (checkExpiry_after_lookup_is_cached Date_parse_iso sample_parseWhoIsData
           sample_URL_host registry_2030 "example.com" empty_world (looked_up empty_world)
           (createByName "example.com")
           (mkResult (JsDateObj (DateAt 1903824000000))
                     (Some {[ "Registry Expiry Date" := "2030-05-01T00:00:00Z" ]}))
           172800000 eq_refl eq_refl eq_refl eq_refl).
Defined.

(** The first check of [example.com]. *)
Lemma first_check_creates_row_witness :
  exists b',
    domain_expiry (snd (checkExpiry Date_parse_iso sample_parseWhoIsData
                                    sample_URL_host registry_2030
                                    (Some "example.com") empty_world))
    = <["example.com" := b']> (domain_expiry empty_world)
    /\ expiry b' = JsIsoText (DateAt 1903824000000)
    /\ lastCheck b' = JsIsoText (DateAt 1902873600000).
Proof.
  destruct (first_check_creates_row Date_parse_iso sample_parseWhoIsData
              sample_URL_host registry_2030 "example.com" empty_world
              (looked_up empty_world)
              (mkResult (JsDateObj (DateAt 1903824000000))
                        (Some {[ "Registry Expiry Date" := "2030-05-01T00:00:00Z" ]}))
              eq_refl ltac:(discriminate) eq_refl)
    as (b' & Htable & _ & _ & Hexpiry & Hstamp & _).
  exists b'. split; [exact Htable|]. split; [exact Hexpiry|exact Hstamp].
Defined.

(** Twelve hours after the expiry, the days remaining are 0. *)
Lemma daysRemaining_truncates_witness :
  exists n,
    daysRemaining 1902873600000 (unchecked_row (1902873600000 - 43200000)) = Some n
    /\ ((n < 0)%Z <-> (1902873600000 - 43200000 - 1902873600000 <= - MILLISECONDS_A_DAY)%Z)
    /\ (n = 0%Z <->
        (- MILLISECONDS_A_DAY < 1902873600000 - 43200000 - 1902873600000
         < MILLISECONDS_A_DAY)%Z)
    /\ ((0 < n)%Z <-> (MILLISECONDS_A_DAY <= 1902873600000 - 43200000 - 1902873600000)%Z).
Proof.
  exact (daysRemaining_truncates 1902873600000 (1902873600000 - 43200000)
           (unchecked_row (1902873600000 - 43200000)) eq_refl).
Defined.

(** The registry answers on 2030-04-20 with an expiry twelve hours
    before. *)
Lemma check_expired_today_is_up_witness :
  fst (check Date_parse_iso sample_parseWhoIsData sample_URL_host registry_yesterday
             (fun _ => example_com_result) sample_types
             (http_monitor "https://www.example.com/") (mkHeartbeat PENDING "")
             empty_world)
  = Return (mkHeartbeat UP "example.com expires in 0 days (2030-04-19T12:00:00.000Z)").
Proof.
  refine (check_expired_today_is_up Date_parse_iso sample_parseWhoIsData
            sample_URL_host registry_yesterday (fun _ => example_com_result)
            sample_types (http_monitor "https://www.example.com/")
            (mkHeartbeat PENDING "") empty_world (looked_up empty_world)
            (mkSupport (Some "example.com") "com") "example.com"
            (createByName "example.com")
            (mkResult (JsDateObj (DateAt 1902830400000))
                      (Some {[ "Registry Expiry Date" := "2030-04-19T12:00:00Z" ]}))
            1902830400000 eq_refl eq_refl eq_refl eq_refl eq_refl eq_refl eq_refl _).
  vm_compute. split; reflexivity.
Defined.

(** A monitor of a type that is not in the table. *)
Lemma check_unsupported_touches_nothing_witness :
  check Date_parse_iso sample_parseWhoIsData sample_URL_host registry_2030
        (fun _ => example_com_result) sample_types
        (mkMonitor "dns" {[ "hostname" := "example.com" ]}) (mkHeartbeat PENDING "")
        empty_world
  = (Throw (TranslatableError "domain_expiry_unsupported_monitor_type"), empty_world).
Proof.
  apply (check_unsupported_touches_nothing Date_parse_iso sample_parseWhoIsData
           sample_URL_host registry_2030 (fun _ => example_com_result) sample_types).
  reflexivity.
Defined.

(** A monitor of [localhost]. *)
Lemma check_without_registrable_domain_witness :
  check Date_parse_iso sample_parseWhoIsData sample_URL_host registry_2030
        (fun _ => localhost_result) sample_types
        (http_monitor "http://localhost") (mkHeartbeat PENDING "") empty_world
  = (Throw (Error "No registry expiry date was found for domain null"), empty_world).
Proof.
  apply (check_without_registrable_domain Date_parse_iso sample_parseWhoIsData
           sample_URL_host registry_2030 (fun _ => localhost_result) sample_types
           (http_monitor "http://localhost") (mkHeartbeat PENDING "") empty_world
           (mkSupport None "localhost"));
    reflexivity.
Defined.

(** The second check of [example.com], two days after the first. *)
Lemma check_again_is_type_error_witness :
  let first := check Date_parse_iso sample_parseWhoIsData sample_URL_host registry_2030
                     (fun _ => example_com_result) sample_types
                     (http_monitor "https://www.example.com/") (mkHeartbeat PENDING "")
                     empty_world in
  fst first
  = Return (mkHeartbeat UP "example.com expires in 11 days (2030-05-01T00:00:00.000Z)")
  /\ check Date_parse_iso sample_parseWhoIsData sample_URL_host registry_2030
           (fun _ => example_com_result) sample_types
           (http_monitor "https://www.example.com/") (mkHeartbeat PENDING "")
           (tick 172800000 (snd first))
     = (Throw (TypeError "expiryDate.getTime is not a function"),
        tick 172800000 (snd first)).
Proof.
  split; [vm_compute; reflexivity|].
  exact (check_again_is_type_error Date_parse_iso sample_parseWhoIsData
           sample_URL_host registry_2030 (fun _ => example_com_result) sample_types
           (http_monitor "https://www.example.com/") (mkHeartbeat PENDING "")
           (mkHeartbeat PENDING "") empty_world (looked_up empty_world)
           (mkSupport (Some "example.com") "com") "example.com"
           (createByName "example.com")
           (mkResult (JsDateObj (DateAt 1903824000000))
                     (Some {[ "Registry Expiry Date" := "2030-05-01T00:00:00Z" ]}))
           1903824000000 172800000 eq_refl eq_refl eq_refl eq_refl eq_refl eq_refl eq_refl).
Defined.

(** A row whose expiry is [null], with a provider. *)
Lemma sendNotifications_nothing_to_do_witness :
  sendNotifications always_delivers (Some "example.com") [mail]
                    (one_row_world 1735862400000 JsNull JsNull JsNull)
  = (Return JsUndefined, one_row_world 1735862400000 JsNull JsNull JsNull).
Proof.
  apply (proj2 (sendNotifications_nothing_to_do always_delivers (Some "example.com")
                  (one_row_world 1735862400000 JsNull JsNull JsNull))
           "example.com" (mkBean "example.com" JsNull JsNull JsNull None) [mail]);
    [reflexivity|left; reflexivity].
Defined.

(** Five days remain and the thresholds are not configured: the default is
    persisted. *)
Lemma sendNotifications_frame_witness :
  domainExpiryNotifyDays
    (snd (sendNotifications first_send_fails (Some "example.com") [mail; chat]
                            five_days_world))
  = Some [7; 14; 21]%Z.
Proof.
  apply (sendNotifications_frame first_send_fails "example.com" five_days_world
           (mkBean "example.com"
                   (JsIsoText (DateAt (1735862400000 + 5 * 86400000 + 3600000)))
                   (JsIsoText (DateAt 1735862400000)) JsNull None)
           (1735862400000 + 5 * 86400000 + 3600000) [mail; chat]
           eq_refl eq_refl ltac:(discriminate)).
Defined.

(** The threshold 14 is recorded and five days remain: the cycle fires at
    7. *)
Lemma recorded_threshold_descends_witness :
  let run := sendNotifications always_delivers (Some "example.com") [mail]
                               fourteen_sent_world in
  (fst run = Return JsUndefined
   \/ exists t,
        fst run = Return (JsNumber t)
        /\ In t [7; 14; 21]%Z
        /\ (t < 14)%Z
        /\ (Z.quot (1735862400000 + 5 * 86400000 + 3600000 - 1735862400000)
                   MILLISECONDS_A_DAY <= t)%Z
        /\ domain_expiry (snd run) !! "example.com"
           = Some (mkBean "example.com"
                          (JsIsoText (DateAt (1735862400000 + 5 * 86400000 + 3600000)))
                          (JsIsoText (DateAt 1735862400000)) (JsNumber t) None))
  /\ fst run = Return (JsNumber 7).
Proof.
  split; [|vm_compute; reflexivity].
  exact (recorded_threshold_descends always_delivers "example.com" fourteen_sent_world
           (mkBean "example.com"
                   (JsIsoText (DateAt (1735862400000 + 5 * 86400000 + 3600000)))
                   (JsIsoText (DateAt 1735862400000)) (JsNumber 14) None)
           (1735862400000 + 5 * 86400000 + 3600000) 14 [mail]
           eq_refl eq_refl ltac:(discriminate) eq_refl ltac:(discriminate)).
Defined.

(** The indented reply, read into a list that ends with [End Text]. *)
Lemma indented_key_is_recognised_witness :
  expiryDate (lookup_callback Date_parse_iso sample_parseWhoIsData_end
                              (Some reply_indented))
  = JsDateObj (DateAt 1903824000000).
Proof.
  exact (indented_key_is_recognised Date_parse_iso sample_parseWhoIsData_end
           reply_indented "Registry Expiry Date" "2030-05-01T00:00:00Z" 3 0 []
           [mkParam "End Text" ""]
           ltac:(right; left; reflexivity) eq_refl
           ltac:(vm_compute; repeat constructor)).
Defined.

(** A reply with the domain and the registrar only. *)
Lemma unknown_fields_give_no_date_witness :
  expiryDate (lookup_callback Date_parse_iso sample_parseWhoIsData (Some reply_unknown))
  = JsNull.
Proof.
  apply (proj1 (unknown_fields_give_no_date Date_parse_iso sample_parseWhoIsData
                  reply_unknown
                  ltac:(vm_compute; repeat constructor))).
Defined.



(** No bean for the name [null]. *)
Lemma sendNotifications_without_bean_witness :
  sendNotifications always_delivers None [mail] empty_world
  = (Throw (TypeError "Cannot read properties of null (reading 'expiry')"), empty_world).
Proof.
  apply (proj1 (sendNotifications_without_bean always_delivers empty_world [mail]
                  ltac:(discriminate))).
Defined.

(** Five days remain, the thresholds are the default ones: the cycle fires
    at a threshold that is at most 7. *)
Lemma fires_at_smallest_due_threshold_witness :
  exists t0,
    fst (sendNotifications always_delivers (Some "example.com") [mail; chat]
                           five_days_world)
    = Return (JsNumber t0)
    /\ (t0 <= 7)%Z
    /\ length (outbox (snd (sendNotifications always_delivers (Some "example.com")
                                              [mail; chat] five_days_world)))
       = 2%nat.
Proof.
  destruct (proj2 (fires_at_smallest_due_threshold always_delivers "example.com"
                     five_days_world
                     (mkBean "example.com"
                             (JsIsoText (DateAt (1735862400000 + 5 * 86400000 + 3600000)))
                             (JsIsoText (DateAt 1735862400000)) JsNull None)
                     (1735862400000 + 5 * 86400000 + 3600000) [mail; chat]
                     (fun _ _ _ => eq_refl) eq_refl eq_refl ltac:(discriminate))
              7%Z ltac:(left; reflexivity) eq_refl)
    as (t0 & Hr & _ & _ & Hleast & Hlen).
  exists t0. split; [exact Hr|]. split; [|exact Hlen].
  apply Hleast; [left; reflexivity|reflexivity].
Defined.

(** Five days remain, two providers, every send fails: the three default
    thresholds are tried with both. *)
Lemma nothing_recorded_when_all_sends_fail_witness :
  let run := sendNotifications never_delivers (Some "example.com") [mail; chat]
                               five_days_world in
  fst run = Return JsUndefined
  /\ domain_expiry (snd run) = domain_expiry five_days_world
  /\ length (outbox (snd run)) = 6%nat.
Proof.
  exact (nothing_recorded_when_all_sends_fail never_delivers "example.com"
           five_days_world
           (mkBean "example.com"
                   (JsIsoText (DateAt (1735862400000 + 5 * 86400000 + 3600000)))
                   (JsIsoText (DateAt 1735862400000)) JsNull None)
           (1735862400000 + 5 * 86400000 + 3600000) [mail; chat]
           (fun _ _ _ => eq_refl) eq_refl eq_refl ltac:(discriminate)).
Defined.

(** C9, the code at the failing input.  The monitor of [example.com] is
    checked on 2030-04-20 and again a day later, with three registries.  The
    first check looks the domain up and ends as the claim says: UP with 11
    days, the error of a domain that expired 3762 days ago, the error of a
    missing date.  The second check finds the row the first one stored:
    [checkExpiry] takes the throttled branch and answers with the stored
    text, not with a [Date], and the adapter ends with the [TypeError] of
    [getTime] in all three cases: where 10 days remain and the claim sets the
    heartbeat to UP, where the domain is expired and the claim gives the
    error of the expired domain, and where no date is on record and the claim
    gives the error that names the domain. *)
Theorem check_after_first_check_is_type_error :
  let check_with := fun registry w =>
    check Date_parse_iso sample_parseWhoIsData sample_URL_host registry
          (fun _ => example_com_result) sample_types
          (http_monitor "https://www.example.com/") (mkHeartbeat PENDING "") w in
  let getTime_error := Throw (TypeError "expiryDate.getTime is not a function") in
  (fst (check_with registry_2030 empty_world)
   = Return (mkHeartbeat UP "example.com expires in 11 days (2030-05-01T00:00:00.000Z)")
   /\ (daysRemaining (clock (day_later empty_world))
        <$> domain_expiry (snd (check_with registry_2030 empty_world)) !! "example.com")
      = Some (Some 10%Z)
   /\ fst (check_with registry_2030
                      (day_later (snd (check_with registry_2030 empty_world))))
      = getTime_error)
  /\ (fst (check_with registry_2020 empty_world)
      = Throw (Error "Domain example.com expired 3762 days ago")
      /\ fst (check_with registry_2020
                         (day_later (snd (check_with registry_2020 empty_world))))
         = getTime_error)
  /\ (fst (check_with registry_down empty_world)
      = Throw (Error "No registry expiry date was found for domain example.com")
      /\ fst (check_with registry_down
                         (day_later (snd (check_with registry_down empty_world))))
         = getTime_error).
Proof. vm_compute. repeat split; reflexivity. Qed.
